(** * iptb node lifecycle: a shallow embedding of [util/localnode.go] and
    [util/localfilecoin.go], and the properties of its process control.

    The Go code is sequential and talks to the operating system at every
    step.  It is embedded as explicit state passing over a [World]: the
    inherited environment, a flat file system, an abstract kernel state and
    the chronological trace of the calls made so far.  Go's [(value, error)]
    results are pairs whose second component is [option error] ([None] is
    [nil]). *)

From Stdlib Require Import ZArith Ascii String List DecimalString.
From Stdlib Require DecimalPos.
From stdpp Require Import base gmap strings list.

Import ListNotations.
Local Open Scope string_scope.
Local Open Scope list_scope.
Local Open Scope Z_scope.

(** ** Go values: errors and formatted text *)

Inductive Errno := ENOENT | EACCES | ESRCH | EPERM | EINVAL.

Inductive NumErrKind := ErrSyntax | ErrRange.

(** [error] keeps the structure of the values the code builds instead of
    their rendered text: [fmt.Errorf format args] is [Errorf format args]. *)
Inductive error :=
| PathError (op path : string) (e : Errno)         (* *os.PathError *)
| SyscallError (e : Errno)                         (* syscall.Errno *)
| NumError (func num : string) (k : NumErrKind)    (* *strconv.NumError *)
| ProcessDone                                      (* os: process already finished *)
| RuntimeError (msg : string)                      (* runtime.Error *)
| errors_New (msg : string)
| Errorf (format : string) (args : list fmt_arg)
with fmt_arg :=
| AStr (s : string)
| AInt (z : Z)
| AErr (e : error).

(** [os.IsNotExist]: true on the "no such file" errors of the os package. *)
Definition os_IsNotExist (err : option error) : bool :=
  match err with
  | Some (PathError _ _ ENOENT) => true
  | Some (SyscallError ENOENT) => true
  | _ => false
  end.

(** A call that may panic instead of returning. *)
Inductive outcome (A : Type) :=
| Returned (a : A)
| Panicked (v : error).
Arguments Returned {A} a.
Arguments Panicked {A} v.

(** ** Strings *)

(** [strings.Split s sep] for a one-byte separator. *)
Fixpoint strings_Split (s : string) (sep : ascii) : list string :=
  match s with
  | EmptyString => [EmptyString]
  | String c s' =>
      if Ascii.eqb c sep then EmptyString :: strings_Split s' sep
      else match strings_Split s' sep with
           | p :: ps => String c p :: ps
           | [] => [String c EmptyString]
           end
  end.

(** [p[0]] of a split, which Go guarantees to exist. *)
Definition split0 (e : string) : string := hd EmptyString (strings_Split e "=").

(** Decimal rendering, as [fmt.Sprint] and the [%d] verb print an int. *)
Definition fmt_Sprint_int (z : Z) : string := NilZero.string_of_int (Z.to_int z).

(** [strconv.Atoi] on a 64-bit platform: an optional sign and at least one
    decimal digit, nothing else; out-of-range values are clamped and
    reported. *)
Definition digit_of (c : ascii) : option Z :=
  let n := Z.of_nat (nat_of_ascii c) in
  if (48 <=? n) && (n <=? 57) then Some (n - 48) else None.

Fixpoint parse_digits (acc : Z) (s : string) : option Z :=
  match s with
  | EmptyString => Some acc
  | String c s' =>
      match digit_of c with
      | Some d => parse_digits (acc * 10 + d) s'
      | None => None
      end
  end.

Definition maxInt : Z := 2 ^ 63 - 1.
Definition minInt : Z := - 2 ^ 63.

Definition strconv_Atoi (s : string) : Z * option error :=
  let syntax := (0, Some (NumError "Atoi" s ErrSyntax)) in
  let '(neg, body) :=
    match s with
    | String "-" s' => (true, s')
    | String "+" s' => (false, s')
    | _ => (false, s)
    end in
  match body with
  | EmptyString => syntax
  | _ =>
      match parse_digits 0 body with
      | None => syntax
      | Some n =>
          let v := if neg then - n else n in
          if maxInt <? v then (maxInt, Some (NumError "Atoi" s ErrRange))
          else if v <? minInt then (minInt, Some (NumError "Atoi" s ErrRange))
          else (v, None)
      end
  end.

(** ** Nodes *)

Record LocalNode := mkLocalNode {
  Dir : string;
  PeerID : string
}.

Record FilecoinNode := mkFilecoinNode {
  fDir : string;
  fPeerID : string;
  ApiPort : string
}.

(** The two implementations of the [TestbedNode] interface. *)
Inductive TestbedNode :=
| Local (n : LocalNode)
| Filecoin (fn : FilecoinNode).

Definition LocalNode_GetPeerID (n : LocalNode) : string := PeerID n.
Definition FilecoinNode_GetPeerID (fn : FilecoinNode) : string := fPeerID fn.

Definition GetPeerID (n : TestbedNode) : string :=
  match n with
  | Local n => LocalNode_GetPeerID n
  | Filecoin fn => FilecoinNode_GetPeerID fn
  end.

(** ** Environment builder *)

(** The [for i, e := range envs] loop of [envForDaemon]: the first entry
    whose text before "=" is [key] is overwritten at its index and the
    loop returns; [None] when the loop runs to its end. *)
Fixpoint range_replace (key npath : string) (envs : list string)
    (i : nat) (rest : list string) : option (list string) :=
  match rest with
  | [] => None
  | e :: rest' =>
      if String.eqb (split0 e) key then Some (<[i:=npath]> envs)
      else range_replace key npath envs (S i) rest'
  end.

(** [LocalNode.envForDaemon], on the value [envs] of [os.Environ()]. *)
Definition LocalNode_envForDaemon_on (n : LocalNode) (envs : list string)
    : list string * option error :=
  let dir := Dir n in
  let npath := "IPFS_PATH=" +:+ dir in
  match range_replace "IPFS_PATH" npath envs 0 envs with
  | Some envs' => (envs', None)
  | None => (envs ++ [npath], None)
  end.

(** [FilecoinNode.envForDaemon], on the value [envs] of [os.Environ()]. *)
Definition FilecoinNode_envForDaemon_on (fn : FilecoinNode) (envs : list string)
    : list string * option error :=
  let dir := fDir fn in
  let npath := "FIL_PATH=" +:+ dir in
  match range_replace "FIL_PATH" npath envs 0 envs with
  | Some envs' => (envs', None)
  | None => (envs ++ [npath; "FIL_API=" +:+ ApiPort fn], None)
  end.

(** Number of entries of an environment that name the variable [key]. *)
Definition occurrences (key : string) (envs : list string) : nat :=
  length (filter (fun e => split0 e = key) envs).

(** ** The world the harness runs in *)

Inductive Signal := SIG0 | SIGINT | SIGQUIT | SIGKILL.

Inductive OpenFlag := O_RDONLY | O_RDWR | O_CREATE | O_TRUNC | O_APPEND.

(** An open [*os.File]: the path it was opened on and the open flags. *)
Record File := mkFile {
  f_name : string;
  f_flag : list OpenFlag
}.

(** The fields of [exec.Cmd] the harness sets. *)
Record Cmd := mkCmd {
  c_Path : string;
  c_Args : list string;
  c_Dir : string;
  c_Env : list string;
  c_Stdout : option File;
  c_Stderr : option File;
  c_Setsid : bool
}.

(** [ipfs/go-ipfs/repo/config.Config], reduced to the field read here. *)
Record Config := mkConfig {
  Identity_PeerID : string
}.

(** One entry of the trace per call that leaves the harness process, with
    the arguments of the call and what it returned. *)
Inductive Event :=
| EvSignal (pid : Z) (s : Signal) (err : option error)
| EvSleep (ms : Z)
| EvCreate (name : string) (err : option error)
| EvWriteFile (name data : string) (err : option error)
| EvRemove (name : string) (err : option error)
| EvStart (c : Cmd) (pid : Z) (err : option error)
| EvRun (c : Cmd) (out errout : string) (err : option error)
| EvExec (argv0 : string) (argv envv : list string) (err : option error)
| EvPrintf (format : string) (args : list fmt_arg)
| EvPrintln (args : list fmt_arg).

(** [w_files] maps a path to the content of the regular file there; the
    paths in [w_denied] refuse every access with EACCES.  Directories are
    not modelled: a path is a flat name. *)
Record World (OS : Type) := mkWorld {
  w_environ : list string;
  w_files : gmap string string;
  w_denied : gset string;
  w_os : OS;
  w_trace : list Event
}.
Arguments mkWorld {OS}.
Arguments w_environ {OS}.
Arguments w_files {OS}.
Arguments w_denied {OS}.
Arguments w_os {OS}.
Arguments w_trace {OS}.

(** What the code calls and the repository's sources under review do not
    define: the kernel's process control, the library functions whose
    result depends on the platform, and the helpers of this package that
    live in other files ([setupOpt], [LoadNodes], [waitOnAPI]). *)
Class Platform (OS : Type) := {
  os_FindProcess : Z -> OS -> option error;
  proc_Signal : Z -> Signal -> OS -> option error * OS;
  time_Sleep : Z -> OS -> OS;
  cmd_Start : Cmd -> OS -> (Z * option error) * OS;
  cmd_Run : Cmd -> OS -> (string * string * option error) * OS;
  syscall_Exec : string -> list string -> list string -> OS -> option error;
  filepath_Join : string -> string -> string;
  strings_TrimSpace : string -> string;
  serial_Load : string -> World OS -> Config * option error;
  LoadNodes : World OS -> list TestbedNode * option error;
  waitOnAPI : LocalNode -> World OS -> option error * World OS;
  setupOpt : Cmd -> Cmd
}.

Section Harness.
Context {OS : Type} `{!Platform OS}.

Abbreviation World := (World OS).

Definition log (ev : Event) (w : World) : World :=
  mkWorld (w_environ w) (w_files w) (w_denied w) (w_os w) (w_trace w ++ [ev]).

Definition set_os (o : OS) (w : World) : World :=
  mkWorld (w_environ w) (w_files w) (w_denied w) o (w_trace w).

Definition set_files (fs : gmap string string) (w : World) : World :=
  mkWorld (w_environ w) fs (w_denied w) (w_os w) (w_trace w).

(** *** Environment *)

Definition os_Environ (w : World) : list string := w_environ w.

(** [os.Getenv]: the value of the first entry "key=value", else empty. *)
Fixpoint lookup_env (key : string) (envs : list string) : string :=
  match envs with
  | [] => ""
  | e :: envs' =>
      if String.prefix (key +:+ "=") e
      then String.substring (S (String.length key))
             (String.length e - S (String.length key)) e
      else lookup_env key envs'
  end.

Definition os_Getenv (key : string) (w : World) : string :=
  lookup_env key (w_environ w).

Definition LocalNode_envForDaemon (n : LocalNode) (w : World)
    : list string * option error :=
  LocalNode_envForDaemon_on n (os_Environ w).

Definition FilecoinNode_envForDaemon (fn : FilecoinNode) (w : World)
    : list string * option error :=
  FilecoinNode_envForDaemon_on fn (os_Environ w).

(** *** Files *)

Definition ioutil_ReadFile (name : string) (w : World) : string * option error :=
  match w_files w !! name with
  | None => ("", Some (PathError "open" name ENOENT))
  | Some b =>
      if decide (name ∈ w_denied w) then ("", Some (PathError "open" name EACCES))
      else (b, None)
  end.

(** [os.Create]: open read-write, create if missing, truncate if present. *)
Definition os_Create (name : string) (w : World) : (option File * option error) * World :=
  if decide (name ∈ w_denied w)
  then let err := Some (PathError "open" name EACCES) in
       ((None, err), log (EvCreate name err) w)
  else ((Some (mkFile name [O_RDWR; O_CREATE; O_TRUNC]), None),
        log (EvCreate name None) (set_files (<[name := ""]> (w_files w)) w)).

Definition ioutil_WriteFile (name data : string) (w : World) : option error * World :=
  if decide (name ∈ w_denied w)
  then let err := Some (PathError "open" name EACCES) in
       (err, log (EvWriteFile name data err) w)
  else (None, log (EvWriteFile name data None)
                (set_files (<[name := data]> (w_files w)) w)).

Definition os_Remove (name : string) (w : World) : option error * World :=
  match w_files w !! name with
  | None =>
      let err := Some (PathError "remove" name ENOENT) in
      (err, log (EvRemove name err) w)
  | Some _ =>
      if decide (name ∈ w_denied w)
      then let err := Some (PathError "remove" name EACCES) in
           (err, log (EvRemove name err) w)
      else (None, log (EvRemove name None)
                    (set_files (delete name (w_files w)) w))
  end.

(** *** Processes *)

Definition Process_Signal (p : Z) (sig : Signal) (w : World) : option error * World :=
  let '(err, o) := proc_Signal p sig (w_os w) in
  (err, log (EvSignal p sig err) (set_os o w)).

Definition Sleep (ms : Z) (w : World) : World :=
  log (EvSleep ms) (set_os (time_Sleep ms (w_os w)) w).

Definition Cmd_Start (c : Cmd) (w : World) : (Z * option error) * World :=
  let '((pid, err), o) := cmd_Start c (w_os w) in
  ((pid, err), log (EvStart c pid err) (set_os o w)).

Definition Cmd_Run (c : Cmd) (w : World) : (string * string * option error) * World :=
  let '((out, errout, err), o) := cmd_Run c (w_os w) in
  ((out, errout, err), log (EvRun c out errout err) (set_os o w)).

Definition Printf (format : string) (args : list fmt_arg) (w : World) : World :=
  log (EvPrintf format args) w.

Definition Println (args : list fmt_arg) (w : World) : World :=
  log (EvPrintln args) w.

(** [exec.Command name arg...] *)
Definition exec_Command (name : string) (arg : list string) : Cmd :=
  mkCmd name (name :: arg) "" [] None None false.

Definition getPID (dir : string) (w : World) : Z * option error :=
  let '(b, err) := ioutil_ReadFile (filepath_Join dir "daemon.pid") w in
  match err with
  | Some e => (-1, Some e)
  | None => strconv_Atoi b
  end.

Definition isAlive (dir : string) (w : World) : (bool * option error) * World :=
  let '(pid, err) := getPID dir w in
  if os_IsNotExist err then ((false, None), w)
  else match err with
  | Some e => ((false, Some e), w)
  | None =>
      match os_FindProcess pid (w_os w) with
      | Some _ => ((false, None), w)
      | None =>
          let '(err, w) := Process_Signal pid SIG0 w in
          match err with
          | None => ((true, None), w)
          | Some _ => ((false, None), w)
          end
      end
  end.

Definition startProcess (bin dcmd : string) (args : list string) (dir : string)
    (env : list string) (w : World) : option error * World :=
  let '((alive, err), w) := isAlive dir w in
  match err with
  | Some e => (Some e, w)
  | None =>
  if alive then (Some (Errorf "node is already running" []), w)
  else
  let dargs := [dcmd] ++ args in
  let cmd := exec_Command bin dargs in
  let cmd := mkCmd (c_Path cmd) (c_Args cmd) dir (c_Env cmd)
               (c_Stdout cmd) (c_Stderr cmd) (c_Setsid cmd) in
  let cmd := mkCmd (c_Path cmd) (c_Args cmd) (c_Dir cmd) env
               (c_Stdout cmd) (c_Stderr cmd) (c_Setsid cmd) in
  let cmd := setupOpt cmd in
  let '((stdout, err), w) := os_Create (filepath_Join dir "daemon.stdout") w in
  match err with
  | Some e => (Some e, w)
  | None =>
  let '((stderr, err), w) := os_Create (filepath_Join dir "daemon.stderr") w in
  match err with
  | Some e => (Some e, w)
  | None =>
  let cmd := mkCmd (c_Path cmd) (c_Args cmd) (c_Dir cmd) (c_Env cmd)
               stdout (c_Stderr cmd) (c_Setsid cmd) in
  let cmd := mkCmd (c_Path cmd) (c_Args cmd) (c_Dir cmd) (c_Env cmd)
               (c_Stdout cmd) stderr (c_Setsid cmd) in
  let '((pid, err), w) := Cmd_Start cmd w in
  match err with
  | Some e => (Some e, w)
  | None =>
  let w := Printf "Started daemon %s, pid = %d\n" [AStr dir; AInt pid] w in
  let '(err, w) := ioutil_WriteFile (filepath_Join dir "daemon.pid")
                     (fmt_Sprint_int pid) w in
  match err with
  | Some e => (Some e, w)
  | None => (None, w)
  end end end end end.

(** [waitProcess]: one probe and one 10 ms sleep per round, [ms / 10]
    rounds; [nil] as soon as a probe fails. *)
Fixpoint waitProcess_loop (rounds : nat) (p : Z) (w : World) : option error * World :=
  match rounds with
  | O => (Some (errors_New "timed out"), w)
  | S rounds' =>
      let '(err, w) := Process_Signal p SIG0 w in
      match err with
      | Some _ => (None, w)
      | None => waitProcess_loop rounds' p (Sleep 10 w)
      end
  end.

Definition waitProcess (p : Z) (ms : Z) (w : World) : option error * World :=
  waitProcess_loop (Z.to_nat (Z.quot ms 10)) p w.

(** The closing [for { ... }] of [killPid].  It has no bound in the code;
    [fuel] bounds the rounds of the model.  The flag is [true] when the
    loop was left by its [break] and [false] when it is still running with
    the fuel spent; the world is the one reached either way. *)
Fixpoint killPid_poll (fuel : nat) (p : Z) (w : World) : bool * World :=
  match fuel with
  | O => (false, w)
  | S fuel' =>
      let '(err, w) := Process_Signal p SIG0 w in
      match err with
      | Some _ => (true, w)
      | None => killPid_poll fuel' p (Sleep 10 w)
      end
  end.

(** The statements of [killPid] after the [defer]: [Some ret] is a
    [return ret], [None] a final loop that has not ended yet. *)
Definition killPid_body (fuel : nat) (p : Z) (dir : string) (w : World)
    : option (option error) * World :=
  let '(err, w) := Process_Signal p SIGINT w in
  match err with
  | Some e => (Some (Some (Errorf "error killing daemon %s: %s\n" [AStr dir; AErr e])), w)
  | None =>
  let '(err, w) := waitProcess p 1000 w in
  match err with
  | None => (Some None, w)
  | Some _ =>
  let '(err, w) := Process_Signal p SIGINT w in
  match err with
  | Some e => (Some (Some (Errorf "error killing daemon %s: %s\n" [AStr dir; AErr e])), w)
  | None =>
  let '(err, w) := waitProcess p 1000 w in
  match err with
  | None => (Some None, w)
  | Some _ =>
  let '(err, w) := Process_Signal p SIGQUIT w in
  match err with
  | Some e => (Some (Some (Errorf "error killing daemon %s: %s\n" [AStr dir; AErr e])), w)
  | None =>
  let '(err, w) := waitProcess p 5000 w in
  match err with
  | None => (Some None, w)
  | Some _ =>
  let '(err, w) := Process_Signal p SIGKILL w in
  match err with
  | Some e => (Some (Some (Errorf "error killing daemon %s: %s\n" [AStr dir; AErr e])), w)
  | None =>
  let '(gone, w) := killPid_poll fuel p w in
  if gone then (Some None, w) else (None, w)
  end end end end end end end.

(** The deferred function of [killPid]; [ret] is the value the body
    returned. *)
Definition killPid_deferred (dir : string) (ret : option error) (w : World)
    : outcome (option error) * World :=
  let '(err, w) := os_Remove (filepath_Join dir "daemon.pid") w in
  match err with
  | Some e =>
      if negb (os_IsNotExist err)
      then (Panicked (Errorf "error removing pid file for daemon at %s: %s\n"
                        [AStr dir; AErr e]), w)
      else (Returned ret, w)
  | None => (Returned ret, w)
  end.

(** [killPid]: [None] is a call whose final loop has not ended within
    [fuel] rounds, so that nothing was returned and the deferred function
    has not run. *)
Definition killPid (fuel : nat) (pid : Z) (dir : string) (w : World)
    : option (outcome (option error)) * World :=
  match os_FindProcess pid (w_os w) with
  | Some e =>
      (Some (Returned (Some (Errorf "error killing daemon %s: %s" [AStr dir; AErr e]))), w)
  | None =>
      let '(r, w) := killPid_body fuel pid dir w in
      match r with
      | None => (None, w)
      | Some ret => let '(out, w) := killPid_deferred dir ret w in (Some out, w)
      end
  end.

Definition LocalNode_Kill (fuel : nat) (n : LocalNode) (w : World)
    : option (outcome (option error)) * World :=
  let '(pid, err) := getPID (Dir n) w in
  match err with
  | Some e =>
      (Some (Returned (Some (Errorf "error killing daemon %s: %s" [AStr (Dir n); AErr e]))), w)
  | None => killPid fuel pid (Dir n) w
  end.


(** *** Starting a node *)

Definition LocalNode_Start (n : LocalNode) (args : list string) (w : World)
    : (LocalNode * option error) * World :=
  let '(env, err) := LocalNode_envForDaemon n w in
  match err with
  | Some e => ((n, Some e), w)
  | None =>
  let '(err, w) := startProcess "ipfs" "daemon" args (Dir n) env w in
  match err with
  | Some e => ((n, Some e), w)
  | None =>
  let '(cfg, err) := serial_Load (filepath_Join (Dir n) "config") w in
  match err with
  | Some e => ((n, Some e), w)
  | None =>
  let n := mkLocalNode (Dir n) (Identity_PeerID cfg) in
  let '(err, w) := waitOnAPI n w in
  match err with
  | Some e => ((n, Some e), w)
  | None => ((n, None), w)
  end end end end.

(** [runCmd]; [args[0]] of an empty slice is a run-time panic. *)
Definition runCmd (args env : list string) (w : World)
    : outcome (string * option error) * World :=
  match args with
  | [] => (Panicked (RuntimeError "index out of range"), w)
  | arg0 :: args1 =>
      let cmd := exec_Command arg0 args1 in
      let cmd := mkCmd (c_Path cmd) (c_Args cmd) (c_Dir cmd) env
                   (c_Stdout cmd) (c_Stderr cmd) (c_Setsid cmd) in
      let '((outbuf, errbuf, err), w) := Cmd_Run cmd w in
      match err with
      | Some e => (Returned ("", Some (Errorf "%s: %s %s" [AErr e; AStr outbuf; AStr errbuf])), w)
      | None => (Returned (outbuf, None), w)
      end
  end.

Definition FilecoinNode_RunCmd (fn : FilecoinNode) (args : list string) (w : World)
    : outcome (string * option error) * World :=
  let '(env, err) := FilecoinNode_envForDaemon fn w in
  match err with
  | Some e => (Returned ("", Some (Errorf "error getting env: %s" [AErr e])), w)
  | None => runCmd args env w
  end.

(** The [for i := 0; i < 10; i++] loop of [FilecoinNode.Start], with
    [rounds] iterations left. *)
Fixpoint Start_retry (rounds : nat) (fn : FilecoinNode) (w : World)
    : outcome FilecoinNode * World :=
  match rounds with
  | O => (Returned fn, w)
  | S rounds' =>
      let '(r, w) := FilecoinNode_RunCmd fn ["go-filecoin"; "id"; "--format=<id>"] w in
      match r with
      | Panicked v => (Panicked v, w)
      | Returned (pid, None) =>
          (Returned (mkFilecoinNode (fDir fn) (strings_TrimSpace pid) (ApiPort fn)), w)
      | Returned (_, Some e) =>
          let w := Printf "get id error: %s, retrying..." [AErr e] w in
          let w := Sleep 100 w in
          Start_retry rounds' fn w
      end
  end.

Definition FilecoinNode_Start (fn : FilecoinNode) (args : list string) (w : World)
    : outcome (FilecoinNode * option error) * World :=
  let '(env, err) := FilecoinNode_envForDaemon fn w in
  match err with
  | Some e => (Returned (fn, Some e), w)
  | None =>
  let args := ["--cmdapiaddr=" +:+ ApiPort fn; "--swarmlisten=/ip4/127.0.0.1/tcp/0"] ++ args in
  let '(err, w) := startProcess "go-filecoin" "daemon" args (fDir fn) env w in
  match err with
  | Some e => (Returned (fn, Some e), w)
  | None =>
  let w := Sleep 100 w in
  let '(r, w) := Start_retry 10 fn w in
  match r with
  | Panicked v => (Panicked v, w)
  | Returned fn =>
  let w := Println [AStr "PEER ID IS: "; AStr (fPeerID fn)] w in
  (Returned (fn, None), w)
  end end end.

(** *** Interactive shell *)

(** The [for i, n := range nodes] loop of [Shell]: [nenvs] grows by one
    "NODE<i>=<peerid>" per node; an empty identity ends the call. *)
Fixpoint Shell_range (i : Z) (nodes : list TestbedNode) (nenvs : list string)
    : list string * option error :=
  match nodes with
  | [] => (nenvs, None)
  | n :: nodes' =>
      let peerid := GetPeerID n in
      if String.eqb peerid "" then (nenvs, Some (Errorf "failed to check peerID" []))
      else Shell_range (i + 1) nodes'
             (nenvs ++ ["NODE" +:+ fmt_Sprint_int i +:+ "=" +:+ peerid])
  end.

(** How a call of [Shell] ends: with an error, or with the process image
    replaced by the shell, after which nothing returns. *)
Inductive ShellEnd :=
| ShellError (e : error)
| ShellExeced.

Definition LocalNode_Shell (n : LocalNode) (w : World) : ShellEnd * World :=
  let shell := os_Getenv "SHELL" w in
  if String.eqb shell "" then (ShellError (Errorf "couldnt find shell!" []), w)
  else
  let nenvs := ["IPFS_PATH=" +:+ Dir n] in
  let '(nodes, err) := LoadNodes w in
  match err with
  | Some e => (ShellError e, w)
  | None =>
  let '(nenvs, err) := Shell_range 0 nodes nenvs in
  match err with
  | Some e => (ShellError e, w)
  | None =>
  let nenvs := os_Environ w ++ nenvs in
  let err := syscall_Exec shell [shell] nenvs (w_os w) in
  let w := log (EvExec shell [shell] nenvs err) w in
  match err with
  | Some e => (ShellError e, w)
  | None => (ShellExeced, w)
  end end end.

Definition FilecoinNode_Shell (fn : FilecoinNode) (w : World) : ShellEnd * World :=
  let shell := os_Getenv "SHELL" w in
  if String.eqb shell "" then (ShellError (Errorf "couldnt find shell!" []), w)
  else
  let nenvs := ["FIL_PATH=" +:+ fDir fn] in
  let '(nodes, err) := LoadNodes w in
  match err with
  | Some e => (ShellError e, w)
  | None =>
  let '(nenvs, err) := Shell_range 0 nodes nenvs in
  match err with
  | Some e => (ShellError e, w)
  | None =>
  let nenvs := os_Environ w ++ nenvs in
  let err := syscall_Exec shell [shell] nenvs (w_os w) in
  let w := log (EvExec shell [shell] nenvs err) w in
  match err with
  | Some e => (ShellError e, w)
  | None => (ShellExeced, w)
  end end end.

(** [Shell] through the [TestbedNode] interface. *)
Definition Shell (n : TestbedNode) (w : World) : ShellEnd * World :=
  match n with
  | Local n => LocalNode_Shell n w
  | Filecoin fn => FilecoinNode_Shell fn w
  end.

End Harness.

(** ** The shutdown escalation as the specification words it *)

(** One step of the escalation: a termination signal, or one liveness
    probe of a wait (followed by a 10 ms sleep when the process is still
    there). *)
Inductive Step :=
| Send (sig : Signal)
| Probe.

(** Interrupt, 1000 ms of probes 10 ms apart, interrupt again, 1000 ms,
    quit, 5000 ms, kill, then probes without a bound (here: [n] of them). *)
Definition spec_escalation (n : nat) : list Step :=
  [Send SIGINT] ++ repeat Probe 100 ++
  [Send SIGINT] ++ repeat Probe 100 ++
  [Send SIGQUIT] ++ repeat Probe 500 ++
  [Send SIGKILL] ++ repeat Probe n.

Definition step_signal (st : Step) : Signal :=
  match st with
  | Send sig => sig
  | Probe => SIG0
  end.

(** The calls of a step that went through: the signal was delivered. *)
Definition step_passed (p : Z) (st : Step) : list Event :=
  match st with
  | Send sig => [EvSignal p sig None]
  | Probe => [EvSignal p SIG0 None; EvSleep 10]
  end.

Definition steps_passed (p : Z) (sts : list Step) : list Event :=
  concat (map (step_passed p) sts).

(** What the kill returns when the signal of step [st] fails with [e]: a
    failed probe is the process gone, a failed send is an error. *)
Definition step_verdict (dir : string) (st : Step) (e : error) : option error :=
  match st with
  | Send _ => Some (Errorf "error killing daemon %s: %s\n" [AStr dir; AErr e])
  | Probe => None
  end.

(** What [killPid] ends with once its body has returned [ret] and the
    deferred removal of the PID file has answered [rm]: a panic when the
    removal failed for another reason than the file not being there. *)
Definition removal_outcome (dir : string) (ret : option error) (rm : option error)
    : outcome (option error) :=
  match rm with
  | Some e =>
      if os_IsNotExist rm then Returned ret
      else Panicked (Errorf "error removing pid file for daemon at %s: %s\n"
                       [AStr dir; AErr e])
  | None => Returned ret
  end.

Section Escalation.
Context {OS : Type} `{!Platform OS}.

(** The command [startProcess] hands to the kernel: what [setupOpt] made
    of the command built, with the two log files as its output. *)
Definition daemon_cmd (bin dcmd : string) (args : list string) (dir : string)
    (env : list string) : Cmd :=
  let c0 := setupOpt (mkCmd bin (bin :: dcmd :: args) dir env None None false) in
  mkCmd (c_Path c0) (c_Args c0) (c_Dir c0) (c_Env c0)
    (Some (mkFile (filepath_Join dir "daemon.stdout") [O_RDWR; O_CREATE; O_TRUNC]))
    (Some (mkFile (filepath_Join dir "daemon.stderr") [O_RDWR; O_CREATE; O_TRUNC]))
    (c_Setsid c0).

(** Performing the steps in order, up to the first signal that fails. *)
Fixpoint spec_kill (sts : list Step) (p : Z) (dir : string) (w : World OS)
    : option (option error) * World OS :=
  match sts with
  | [] => (None, w)
  | st :: sts' =>
      let '(err, w) := Process_Signal p (step_signal st) w in
      match err with
      | Some e => (Some (step_verdict dir st e), w)
      | None =>
          match st with
          | Send _ => spec_kill sts' p dir w
          | Probe => spec_kill sts' p dir (Sleep 10 w)
          end
      end
  end.

End Escalation.

(** ** The environment of the interactive shell *)

(** The data-directory variable of the node the shell is opened for. *)
Definition path_var (n : TestbedNode) : string :=
  match n with
  | Local n => "IPFS_PATH=" +:+ Dir n
  | Filecoin fn => "FIL_PATH=" +:+ fDir fn
  end.

(** "NODE<i>=<peer identity>", for the nodes numbered from [i] on. *)
Fixpoint node_vars (i : Z) (nodes : list TestbedNode) : list string :=
  match nodes with
  | [] => []
  | n :: nodes' =>
      ("NODE" +:+ fmt_Sprint_int i +:+ "=" +:+ GetPeerID n) :: node_vars (i + 1) nodes'
  end.

(** ** The readiness wait of the Filecoin flavor *)

(** The identity query, as [RunCmd] builds it. *)
Definition id_cmd (env : list string) : Cmd :=
  mkCmd "go-filecoin" ["go-filecoin"; "id"; "--format=<id>"] "" env None None false.

(** The calls of one attempt that failed with [e], having printed [out]
    and [errout]: the query, the retry message, the 100 ms sleep. *)
Definition failed_attempt (env : list string) (r : string * string * error)
    : list Event :=
  let '(out, errout, e) := r in
  [EvRun (id_cmd env) out errout (Some e);
   EvPrintf "get id error: %s, retrying..."
     [AErr (Errorf "%s: %s %s" [AErr e; AStr out; AStr errout])];
   EvSleep 100].

(** ** A small concrete platform

    A kernel that answers from a script, used to run the model on concrete
    inputs. *)
Module Toy.

Record OS := mkOS {
  replies : list (option error);   (* answers to the coming signals; gone after that *)
  find_err : option error;         (* answer of os.FindProcess *)
  next_pid : Z;                    (* pid of the next started command *)
  start_err : option error;        (* answer of cmd.Start *)
  run_replies : list (string * string * option error);  (* answers of cmd.Run *)
  registry : list TestbedNode * option error            (* answer of LoadNodes *)
}.

Definition signal (p : Z) (sig : Signal) (o : OS) : option error * OS :=
  match replies o with
  | [] => (Some ProcessDone, o)
  | r :: rs => (r, mkOS rs (find_err o) (next_pid o) (start_err o)
                     (run_replies o) (registry o))
  end.

Definition start (c : Cmd) (o : OS) : (Z * option error) * OS :=
  match start_err o with
  | Some e => ((0, Some e), o)
  | None => ((next_pid o, None),
             mkOS (replies o) (find_err o) (next_pid o + 1) (start_err o)
               (run_replies o) (registry o))
  end.

Definition run (c : Cmd) (o : OS) : (string * string * option error) * OS :=
  match run_replies o with
  | [] => (("", "", Some (errors_New "exit status 1")), o)
  | r :: rs => (r, mkOS (replies o) (find_err o) (next_pid o) (start_err o)
                     rs (registry o))
  end.

Definition is_space (c : ascii) : bool :=
  (Ascii.eqb c " " || Ascii.eqb c "010" || Ascii.eqb c "009" || Ascii.eqb c "013")%bool.

Fixpoint trim_left (s : string) : string :=
  match s with
  | String c s' => if is_space c then trim_left s' else s
  | EmptyString => EmptyString
  end.

Fixpoint trim_right (s : string) : string :=
  match s with
  | EmptyString => EmptyString
  | String c s' =>
      match trim_right s' with
      | EmptyString => if is_space c then EmptyString else String c EmptyString
      | t => String c t
      end
  end.

Definition load (name : string) (w : World OS) : Config * option error :=
  match w_files w !! name with
  | Some b => (mkConfig b, None)
  | None => (mkConfig "", Some (PathError "open" name ENOENT))
  end.

#[global] Instance platform : Platform OS := {|
  os_FindProcess := fun _ o => find_err o;
  proc_Signal := signal;
  time_Sleep := fun _ o => o;
  cmd_Start := start;
  cmd_Run := run;
  syscall_Exec := fun _ _ _ _ => None;
  filepath_Join := fun dir name => dir +:+ "/" +:+ name;
  strings_TrimSpace := fun s => trim_right (trim_left s);
  serial_Load := load;
  LoadNodes := fun w => registry (w_os w);
  waitOnAPI := fun _ w => (None, w);
  setupOpt := fun c => mkCmd (c_Path c) (c_Args c) (c_Dir c) (c_Env c)
                         (c_Stdout c) (c_Stderr c) true
|}.

(** A kernel that answers the coming signals with [rs]; every command it
    is asked to run fails, and the registry is empty. *)
Definition kernel (rs : list (option error)) : OS :=
  mkOS rs None 43 None [] ([], None).

(** A kernel that answers the coming runs with [runs] and holds the
    registry [nodes]. *)
Definition serving (runs : list (string * string * option error))
    (nodes : list TestbedNode) : OS :=
  mkOS [] None 43 None runs (nodes, None).

Definition world (envs : list string) (files : list (string * string))
    (o : OS) : World OS :=
  mkWorld envs (list_to_map files) ∅ o [].

(** A process with pid 42 recorded in /n/daemon.pid. *)
Definition running (rs : list (option error)) : World OS :=
  world ["HOME=/root"] [("/n/daemon.pid", "42")] (kernel rs).

(** A node directory that holds the log of an earlier run and no PID
    file. *)
Definition stopped : World OS :=
  world ["HOME=/root"] [("/n/daemon.stdout", "old log")] (kernel []).

End Toy.

(** ** The rest of the node methods *)

Section Methods.
Context {OS : Type} `{!Platform OS}.

Definition LocalNode_RunCmd (n : LocalNode) (args : list string) (w : World OS)
    : outcome (string * option error) * World OS :=
  let '(env, err) := LocalNode_envForDaemon n w in
  match err with
  | Some e => (Returned ("", Some e), w)
  | None => runCmd args env w
  end.

(** [os.OpenFile name os.O_RDONLY 0] *)
Definition os_OpenFile_RDONLY (name : string) (w : World OS)
    : option File * option error :=
  match w_files w !! name with
  | None => (None, Some (PathError "open" name ENOENT))
  | Some _ =>
      if decide (name ∈ w_denied w) then (None, Some (PathError "open" name EACCES))
      else (Some (mkFile name [O_RDONLY]), None)
  end.

Definition LocalNode_readerFor (n : LocalNode) (file : string) (w : World OS)
    : option File * option error :=
  let '(f, err) := os_OpenFile_RDONLY (filepath_Join (Dir n) file) w in
  (f, err).

Definition LocalNode_StdoutReader (n : LocalNode) (w : World OS)
    : option File * option error :=
  LocalNode_readerFor n "daemon.stdout" w.

Definition LocalNode_StderrReader (n : LocalNode) (w : World OS)
    : option File * option error :=
  LocalNode_readerFor n "daemon.stderr" w.

End Methods.


(** The steps of the escalation that come before the kill signal. *)
Definition escalation_prelude : list Step :=
  [Send SIGINT] ++ repeat Probe 100 ++
  [Send SIGINT] ++ repeat Probe 100 ++
  [Send SIGQUIT] ++ repeat Probe 500.

(** More worlds for the concrete platform. *)
Module Runs.

(** A node directory whose PID file may not be written. *)
Definition pid_locked : World Toy.OS :=
  mkWorld ["HOME=/root"] ∅ {["/n/daemon.pid"]} (Toy.kernel []) [].

(** A machine on which the daemon binary cannot be started. *)
Definition no_binary : World Toy.OS :=
  Toy.world ["HOME=/root"] []
    (Toy.mkOS [] None 43 (Some (errors_New "executable file not found")) [] ([], None)).

(** An initialised node directory: its config holds the peer identity. *)
Definition configured : World Toy.OS :=
  Toy.world ["HOME=/root"] [("/n/config", "QmConfig")] (Toy.kernel []).

(** A PID file that does not parse. *)
Definition corrupt : World Toy.OS :=
  Toy.world ["HOME=/root"] [("/n/daemon.pid", "4 2")] (Toy.kernel []).

End Runs.

(** * Properties *)

(** ** Environment builder *)

Lemma occurrences_nil key : occurrences key [] = 0%nat.
Proof. reflexivity. Qed.

Lemma occurrences_app key l1 l2 :
  occurrences key (l1 ++ l2) = (occurrences key l1 + occurrences key l2)%nat.
Proof. unfold occurrences. by rewrite filter_app, length_app. Qed.

Lemma occurrences_cons key e l :
  occurrences key (e :: l) =
  ((if String.eqb (split0 e) key then 1 else 0) + occurrences key l)%nat.
Proof.
  unfold occurrences. rewrite filter_cons.
  destruct (String.eqb_spec (split0 e) key); case_decide; simpl; congruence.
Qed.

(** The loop of [envForDaemon] on a suffix [rest] of [envs] that starts at
    index [length pre]. *)
Lemma range_replace_suffix key npath pre rest :
  occurrences key pre = 0%nat ->
  match range_replace key npath (pre ++ rest) (length pre) rest with
  | None => occurrences key (pre ++ rest) = 0%nat
  | Some out =>
      exists i e, (pre ++ rest) !! i = Some e /\ split0 e = key /\
        occurrences key (take i (pre ++ rest)) = 0%nat /\
        out = <[i:=npath]> (pre ++ rest)
  end.
Proof.
  revert pre. induction rest as [|e rest IH]; intros pre Hpre; simpl.
  - by rewrite app_nil_r.
  - destruct (String.eqb_spec (split0 e) key) as [Hk|Hk].
    + exists (length pre), e. split_and!; try done.
      * by rewrite lookup_app_r, Nat.sub_diag by lia.
      * by rewrite take_app_length.
    + specialize (IH (pre ++ [e])).
      rewrite length_app, Nat.add_1_r, <- app_assoc in IH. simpl in IH.
      apply IH. rewrite occurrences_app, Hpre, occurrences_cons.
      destruct (String.eqb_spec (split0 e) key); [done|reflexivity].
Qed.

Lemma range_replace_spec key npath envs :
  match range_replace key npath envs 0 envs with
  | None => occurrences key envs = 0%nat
  | Some out =>
      exists i e, envs !! i = Some e /\ split0 e = key /\
        occurrences key (take i envs) = 0%nat /\
        out = <[i:=npath]> envs
  end.
Proof. exact (range_replace_suffix key npath [] envs eq_refl). Qed.

(** Overwriting an entry changes the number of occurrences of [key] by
    what the old and the new entry contribute. *)
Lemma occurrences_insert key (envs : list string) i e x :
  envs !! i = Some e ->
  (occurrences key (<[i:=x]> envs) + (if String.eqb (split0 e) key then 1 else 0) =
   occurrences key envs + (if String.eqb (split0 x) key then 1 else 0))%nat.
Proof.
  intros Hi. pose proof (lookup_lt_Some _ _ _ Hi) as Hlt.
  rewrite insert_take_drop by done.
  rewrite <- (take_drop_middle envs i e Hi) at 3.
  rewrite !occurrences_app, !occurrences_cons. lia.
Qed.

Lemma split0_IPFS_PATH dir : split0 ("IPFS_PATH=" +:+ dir) = "IPFS_PATH".
Proof. reflexivity. Qed.

Lemma split0_FIL_PATH dir : split0 ("FIL_PATH=" +:+ dir) = "FIL_PATH".
Proof. reflexivity. Qed.

(** C5 (as amended): [LocalNode.envForDaemon] overwrites the first entry
    naming IPFS_PATH at its index, so that the length is the input's, and
    appends the variable when no entry names it; later entries naming the
    variable are left as they are.  The output names the variable as often
    as the base does, and once when the base does not; so exactly once, with
    the new value, when the base names it at most once. *)
Theorem envForDaemon_first_occurrence (n : LocalNode) (envs : list string) :
  let npath := "IPFS_PATH=" +:+ Dir n in
  let out := fst (LocalNode_envForDaemon_on n envs) in
  snd (LocalNode_envForDaemon_on n envs) = None /\
  (occurrences "IPFS_PATH" envs = 0%nat -> out = envs ++ [npath]) /\
  (forall i e, envs !! i = Some e -> split0 e = "IPFS_PATH" ->
     occurrences "IPFS_PATH" (take i envs) = 0%nat ->
     out = <[i:=npath]> envs /\ length out = length envs /\ out !! i = Some npath) /\
  occurrences "IPFS_PATH" out = Nat.max 1 (occurrences "IPFS_PATH" envs) /\
  ((occurrences "IPFS_PATH" envs <= 1)%nat ->
     occurrences "IPFS_PATH" out = 1%nat /\ npath ∈ out).
Proof.
  intros npath out. subst out. unfold LocalNode_envForDaemon_on. fold npath.
  pose proof (range_replace_spec "IPFS_PATH" npath envs) as Hspec.
  destruct (range_replace "IPFS_PATH" npath envs 0 envs) as [out|]; simpl.
  - destruct Hspec as (i & e & Hi & He & Hpre & ->).
    pose proof (lookup_lt_Some _ _ _ Hi) as Hlt.
    pose proof (occurrences_insert "IPFS_PATH" envs i e npath Hi) as Hcount.
    rewrite He in Hcount. subst npath.
    rewrite split0_IPFS_PATH in Hcount. simpl in Hcount.
    assert (Hpos : (1 <= occurrences "IPFS_PATH" envs)%nat).
    { rewrite <- (take_drop_middle envs i e Hi), occurrences_app, occurrences_cons, He.
      simpl. lia. }
    split_and!; try done.
    + intros H0. lia.
    + intros j e' Hj He' Hpre'.
      assert (j = i) as ->.
      { destruct (Nat.lt_trichotomy j i) as [Hlt'|[->|Hlt']]; [|done|].
        - exfalso. rewrite <- (take_drop_middle (take i envs) j e') in Hpre.
          + rewrite occurrences_app, occurrences_cons, He' in Hpre. simpl in Hpre. lia.
          + by rewrite lookup_take_lt.
        - exfalso. rewrite <- (take_drop_middle (take j envs) i e) in Hpre'.
          + rewrite occurrences_app, occurrences_cons, He in Hpre'. simpl in Hpre'. lia.
          + by rewrite lookup_take_lt. }
      split_and!; [done|by rewrite length_insert|by apply list_lookup_insert_eq].
    + lia.
    + intros Hle. split; [lia|].
      apply list_elem_of_lookup. exists i. by apply list_lookup_insert_eq.
  - split_and!; try done.
    + intros i e Hi He _. exfalso.
      rewrite <- (take_drop_middle envs i e Hi), occurrences_app, occurrences_cons, He in Hspec.
      simpl in Hspec. lia.
    + rewrite occurrences_app, occurrences_cons, occurrences_nil. subst npath.
      rewrite split0_IPFS_PATH. simpl. lia.
    + intros _. split.
      * rewrite occurrences_app, occurrences_cons, occurrences_nil. subst npath.
        rewrite split0_IPFS_PATH. simpl. lia.
      * apply elem_of_app. right. by apply list_elem_of_singleton.
Qed.

Lemma envForDaemon_first_occurrence_witness :
  let envs := ["HOME=/root"; "IPFS_PATH=/old"; "TERM=xterm"] in
  let out := fst (LocalNode_envForDaemon_on (mkLocalNode "/new" "") envs) in
  (out = <[1%nat:="IPFS_PATH=/new"]> envs /\ length out = length envs /\
   out !! 1%nat = Some "IPFS_PATH=/new") /\
  (occurrences "IPFS_PATH" out = 1%nat /\ "IPFS_PATH=/new" ∈ out).
Proof.
  intros envs out.
  destruct (envForDaemon_first_occurrence (mkLocalNode "/new" "") envs)
    as (_ & _ & Hplace & _ & Honce).
  split.
  - apply (Hplace 1%nat "IPFS_PATH=/old"); reflexivity.
  - apply Honce. vm_compute. lia.
Defined.

(** C5, the claim as stated, fails on a base environment that names the
    variable twice: a bare entry "IPFS_PATH" followed by "IPFS_PATH=/old".
    The loop overwrites the first and returns; the stale assignment stays,
    and the output names the variable twice. *)
Lemma envForDaemon_duplicate_counterexample :
  let envs := ["IPFS_PATH"; "IPFS_PATH=/old"] in
  let out := fst (LocalNode_envForDaemon_on (mkLocalNode "/new" "") envs) in
  out = ["IPFS_PATH=/new"; "IPFS_PATH=/old"] /\
  occurrences "IPFS_PATH" out <> 1%nat.
Proof. split; [reflexivity|vm_compute; lia]. Qed.

(** C10: [FilecoinNode.envForDaemon] appends FIL_API only together with
    FIL_PATH, when no entry of the base names FIL_PATH.  When one does, the
    output is the base with that one entry overwritten: same length, and as
    many entries naming FIL_API as the base has. *)
Theorem FIL_API_only_when_FIL_PATH_absent (fn : FilecoinNode) (envs : list string) :
  let npath := "FIL_PATH=" +:+ fDir fn in
  let out := fst (FilecoinNode_envForDaemon_on fn envs) in
  (occurrences "FIL_PATH" envs = 0%nat ->
     out = envs ++ [npath; "FIL_API=" +:+ ApiPort fn]) /\
  (occurrences "FIL_PATH" envs <> 0%nat ->
     (exists i e, envs !! i = Some e /\ split0 e = "FIL_PATH" /\
        out = <[i:=npath]> envs) /\
     length out = length envs /\
     occurrences "FIL_API" out = occurrences "FIL_API" envs).
Proof.
  intros npath out. subst out. unfold FilecoinNode_envForDaemon_on. fold npath.
  pose proof (range_replace_spec "FIL_PATH" npath envs) as Hspec.
  destruct (range_replace "FIL_PATH" npath envs 0 envs) as [out|]; simpl.
  - destruct Hspec as (i & e & Hi & He & Hpre & ->).
    split.
    + intros H0. exfalso.
      rewrite <- (take_drop_middle envs i e Hi), occurrences_app, occurrences_cons, He in H0.
      simpl in H0. lia.
    + intros _. split_and!.
      * by exists i, e.
      * by rewrite length_insert.
      * pose proof (occurrences_insert "FIL_API" envs i e npath Hi) as Hcount.
        rewrite He in Hcount. subst npath.
        rewrite split0_FIL_PATH in Hcount. simpl in Hcount. lia.
  - split; [done|]. intros Hne. done.
Qed.

Lemma FIL_API_only_when_FIL_PATH_absent_witness :
  let fn := mkFilecoinNode "/fil" "" "3453" in
  fst (FilecoinNode_envForDaemon_on fn ["HOME=/root"]) =
    ["HOME=/root"; "FIL_PATH=/fil"; "FIL_API=3453"] /\
  occurrences "FIL_API" (fst (FilecoinNode_envForDaemon_on fn ["FIL_PATH=/old"; "HOME=/root"])) = 0%nat.
Proof.
  intros fn. split.
  - apply (FIL_API_only_when_FIL_PATH_absent fn ["HOME=/root"]). reflexivity.
  - destruct (FIL_API_only_when_FIL_PATH_absent fn ["FIL_PATH=/old"; "HOME=/root"])
      as [_ Hpresent].
    destruct Hpresent as (_ & _ & ->); [vm_compute; lia|reflexivity].
Defined.

Section Properties.
Context {OS : Type} `{!Platform OS}.

Implicit Types (w : World OS) (dir : string) (p pid : Z).

(** ** What the primitive calls leave alone *)

Lemma Process_Signal_inv p sig w err w' :
  Process_Signal p sig w = (err, w') ->
  w_environ w' = w_environ w /\ w_files w' = w_files w /\
  w_denied w' = w_denied w /\ w_trace w' = w_trace w ++ [EvSignal p sig err] /\
  proc_Signal p sig (w_os w) = (err, w_os w').
Proof.
  unfold Process_Signal. destruct (proc_Signal p sig (w_os w)) as [err0 o].
  intros [= <- <-]. done.
Qed.

Lemma Sleep_inv ms w :
  w_environ (Sleep ms w) = w_environ w /\ w_files (Sleep ms w) = w_files w /\
  w_denied (Sleep ms w) = w_denied w /\
  w_trace (Sleep ms w) = w_trace w ++ [EvSleep ms].
Proof. done. Qed.

(** ** Liveness prober *)

Lemma strconv_Atoi_err s v e : strconv_Atoi s = (v, Some e) -> os_IsNotExist (Some e) = false.
Proof.
  unfold strconv_Atoi.
  destruct (match s with
            | String "-" s' => (true, s')
            | String "+" s' => (false, s')
            | _ => (false, s)
            end) as [neg body].
  destruct body; [by intros [= <- <-]|].
  destruct (parse_digits 0 _); [|by intros [= <- <-]].
  repeat case_match; by intros [= <- <-].
Qed.

(** C3 (as amended): [isAlive] returns false and no error when the PID
    file is absent, and the error when the file cannot be read or does not
    parse.  Otherwise, with the process handle obtained, it sends signal 0
    to the parsed pid and reports the node alive exactly when that call
    returns no error: a probe refused for lack of permission counts as not
    alive, like a probe that finds no process. *)
Theorem isAlive_probe dir w :
  let pidfile := filepath_Join dir "daemon.pid" in
  (w_files w !! pidfile = None -> isAlive dir w = ((false, None), w)) /\
  (forall b e, ioutil_ReadFile pidfile w = (b, Some e) -> os_IsNotExist (Some e) = false ->
     isAlive dir w = ((false, Some e), w)) /\
  (forall b v e, ioutil_ReadFile pidfile w = (b, None) -> strconv_Atoi b = (v, Some e) ->
     isAlive dir w = ((false, Some e), w)) /\
  (forall b pid err w', ioutil_ReadFile pidfile w = (b, None) ->
     strconv_Atoi b = (pid, None) -> os_FindProcess pid (w_os w) = None ->
     Process_Signal pid SIG0 w = (err, w') ->
     isAlive dir w = ((bool_decide (err = None), None), w')).
Proof.
  intros pidfile. unfold isAlive, getPID. fold pidfile. split_and!.
  - intros Habs. unfold ioutil_ReadFile. by rewrite Habs.
  - intros b e -> Hne. by rewrite Hne.
  - intros b v e -> Hatoi. rewrite Hatoi.
    by rewrite (strconv_Atoi_err _ _ _ Hatoi).
  - intros b pid err w' -> -> Hfind Hsig. simpl. rewrite Hfind, Hsig.
    by destruct err.
Qed.

(** [isAlive] touches no file, and its only call is the probe. *)
Lemma isAlive_inv dir w r w' :
  isAlive dir w = (r, w') ->
  w_environ w' = w_environ w /\ w_files w' = w_files w /\
  w_denied w' = w_denied w /\
  (w' = w \/ exists pid err, w_trace w' = w_trace w ++ [EvSignal pid SIG0 err]).
Proof.
  unfold isAlive. destruct (getPID dir w) as [pid err].
  destruct (os_IsNotExist err); [intros [= <- <-]; auto|].
  destruct err; [intros [= <- <-]; auto|].
  destruct (os_FindProcess pid (w_os w)); [intros [= <- <-]; auto|].
  destruct (Process_Signal pid SIG0 w) as [err w1] eqn:Hsig.
  apply Process_Signal_inv in Hsig as (He & Hf & Hd & Ht & _).
  destruct err; intros [= <- <-]; split_and!; eauto.
Qed.

(** ** Process launcher *)

(** C4: when the liveness probe reports a live process, [startProcess]
    returns the already-running error right there: the world is the one
    the probe left, with the files untouched and nothing in the trace but
    the probe, so that no process is started.  Both [Start] methods fail
    the same way, their node unchanged. *)
Theorem start_refuses_live_node bin dcmd args dir env w w1 :
  isAlive dir w = ((true, None), w1) ->
  startProcess bin dcmd args dir env w = (Some (Errorf "node is already running" []), w1) /\
  w_files w1 = w_files w /\
  (exists pid, w_trace w1 = w_trace w ++ [EvSignal pid SIG0 None]) /\
  (forall n, Dir n = dir ->
     LocalNode_Start n args w = ((n, Some (Errorf "node is already running" [])), w1)) /\
  (forall fn, fDir fn = dir ->
     FilecoinNode_Start fn args w =
       (Returned (fn, Some (Errorf "node is already running" [])), w1)).
Proof.
  intros Halive.
  assert (Hstart : forall bin dcmd args env,
    startProcess bin dcmd args dir env w = (Some (Errorf "node is already running" []), w1)).
  { intros. unfold startProcess. by rewrite Halive. }
  split_and!.
  - apply Hstart.
  - by apply isAlive_inv in Halive as (_ & ? & _).
  - revert Halive. unfold isAlive. destruct (getPID dir w) as [pid err].
    destruct (os_IsNotExist err); [done|]. destruct err; [done|].
    destruct (os_FindProcess pid (w_os w)); [done|].
    destruct (Process_Signal pid SIG0 w) as [err w2] eqn:Hsig.
    apply Process_Signal_inv in Hsig as (_ & _ & _ & Ht & _).
    destruct err; [done|]. intros [= <-]. by exists pid.
  - intros n <-. unfold LocalNode_Start, LocalNode_envForDaemon, LocalNode_envForDaemon_on.
    destruct (range_replace _ _ _ _ _); by rewrite Hstart.
  - intros fn <-.
    unfold FilecoinNode_Start, FilecoinNode_envForDaemon, FilecoinNode_envForDaemon_on.
    destruct (range_replace _ _ _ _ _); by rewrite Hstart.
Qed.

(** A launch that succeeds: the probe found no live process, both log
    files were created, the command was started and its pid written. *)
Lemma startProcess_success bin dcmd args dir env w w' :
  startProcess bin dcmd args dir env w = (None, w') ->
  exists w0 pid,
    isAlive dir w = ((false, None), w0) /\
    w_trace w' = w_trace w0 ++
      [EvCreate (filepath_Join dir "daemon.stdout") None;
       EvCreate (filepath_Join dir "daemon.stderr") None;
       EvStart (daemon_cmd bin dcmd args dir env) pid None;
       EvPrintf "Started daemon %s, pid = %d\n" [AStr dir; AInt pid];
       EvWriteFile (filepath_Join dir "daemon.pid") (fmt_Sprint_int pid) None] /\
    w_files w' =
      <[filepath_Join dir "daemon.pid" := fmt_Sprint_int pid]>
        (<[filepath_Join dir "daemon.stderr" := ""]>
           (<[filepath_Join dir "daemon.stdout" := ""]> (w_files w))) /\
    w_environ w' = w_environ w /\ w_denied w' = w_denied w.
Proof.
  unfold startProcess.
  destruct (isAlive dir w) as [[alive err] w0] eqn:Halive.
  destruct err; [done|]. destruct alive; [done|].
  apply isAlive_inv in Halive as Hinv. destruct Hinv as (Henv & Hfiles & Hden & _).
  unfold os_Create.
  destruct (decide (filepath_Join dir "daemon.stdout" ∈ w_denied w0)); [done|].
  simpl. destruct (decide (filepath_Join dir "daemon.stderr" ∈ w_denied w0)); [done|].
  simpl. unfold Cmd_Start. simpl.
  destruct (cmd_Start _ (w_os w0)) as [[pid err] o] eqn:Hstart.
  destruct err; [done|]. unfold ioutil_WriteFile. simpl.
  destruct (decide (filepath_Join dir "daemon.pid" ∈ w_denied w0)); [done|].
  intros [= <-]. exists w0, pid. simpl. rewrite Hfiles, Henv, Hden.
  split_and!; try done.
  by rewrite <- !app_assoc.
Qed.

(** C6 (as amended): on every successful launch the command started has
    its standard output and standard error on two files, daemon.stdout and
    daemon.stderr of the node directory, each opened by [os.Create]: read
    and write, created when missing and truncated when present, not
    appended to.  Both files are empty right after the launch.  Where
    [setupOpt] leaves the directory and the environment of the command
    alone, the working directory is the node directory and the environment
    is the one [startProcess] was given, which in both [Start] methods is
    the output of [envForDaemon]. *)
Theorem launch_redirects_output bin dcmd args dir env w w' :
  startProcess bin dcmd args dir env w = (None, w') ->
  (forall c, c_Dir (setupOpt c) = c_Dir c /\ c_Env (setupOpt c) = c_Env c) ->
  exists c pid,
    EvStart c pid None ∈ w_trace w' /\
    c_Stdout c = Some (mkFile (filepath_Join dir "daemon.stdout") [O_RDWR; O_CREATE; O_TRUNC]) /\
    c_Stderr c = Some (mkFile (filepath_Join dir "daemon.stderr") [O_RDWR; O_CREATE; O_TRUNC]) /\
    c_Dir c = dir /\ c_Env c = env /\
    w_files w' =
      <[filepath_Join dir "daemon.pid" := fmt_Sprint_int pid]>
        (<[filepath_Join dir "daemon.stderr" := ""]>
           (<[filepath_Join dir "daemon.stdout" := ""]> (w_files w))).
Proof.
  intros Hstart Hopt.
  apply startProcess_success in Hstart as (w0 & pid & _ & Htrace & Hfiles & _).
  exists (daemon_cmd bin dcmd args dir env), pid.
  split_and!; try done.
  - rewrite Htrace. apply elem_of_app. right.
    do 2 apply list_elem_of_further. apply list_elem_of_here.
  - simpl. by rewrite (proj1 (Hopt _)).
  - simpl. by rewrite (proj2 (Hopt _)).
Qed.

(** C9: when [startProcess] has succeeded and loading the config file of
    the node then fails, [LocalNode.Start] returns that error with the node
    unchanged and the world as the launch left it: the last calls made are
    the start of the daemon and the write of its pid, the PID file holds
    that pid, and no signal was sent and no file removed afterwards. *)
Theorem Start_config_failure_leaves_daemon (n : LocalNode) args w w1 cfg e :
  startProcess "ipfs" "daemon" args (Dir n) (fst (LocalNode_envForDaemon n w)) w = (None, w1) ->
  serial_Load (filepath_Join (Dir n) "config") w1 = (cfg, Some e) ->
  LocalNode_Start n args w = ((n, Some e), w1) /\
  exists pid c tr,
    w_trace w1 = tr ++
      [EvStart c pid None;
       EvPrintf "Started daemon %s, pid = %d\n" [AStr (Dir n); AInt pid];
       EvWriteFile (filepath_Join (Dir n) "daemon.pid") (fmt_Sprint_int pid) None] /\
    w_files w1 !! filepath_Join (Dir n) "daemon.pid" = Some (fmt_Sprint_int pid).
Proof.
  intros Hstart Hload. split.
  - unfold LocalNode_Start.
    destruct (LocalNode_envForDaemon n w) as [env err] eqn:Henv.
    assert (err = None) as ->.
    { revert Henv. unfold LocalNode_envForDaemon, LocalNode_envForDaemon_on.
      destruct (range_replace _ _ _ _ _); congruence. }
    simpl in Hstart. by rewrite Hstart, Hload.
  - apply startProcess_success in Hstart as (w0 & pid & _ & Htrace & Hfiles & _).
    exists pid, (daemon_cmd "ipfs" "daemon" args (Dir n) (fst (LocalNode_envForDaemon n w))).
    eexists. split.
    + rewrite Htrace.
      change [?a; ?b; ?c; ?d; ?f] with ([a; b] ++ [c; d; f]).
      rewrite app_assoc. reflexivity.
    + rewrite Hfiles. apply lookup_insert_eq.
Qed.

(** ** Shutdown escalator *)

(** A wait of the code is a run of probes of the schedule. *)
Lemma spec_kill_wait n rest p dir w :
  spec_kill (repeat Probe n ++ rest) p dir w =
  let '(err, w1) := waitProcess_loop n p w in
  match err with
  | None => (Some None, w1)
  | Some _ => spec_kill rest p dir w1
  end.
Proof.
  revert w. induction n as [|n IH]; intros w; [done|].
  cbn [repeat app spec_kill waitProcess_loop step_signal].
  destruct (Process_Signal p SIG0 w) as [[e|] w1]; [done|]. apply IH.
Qed.

Lemma spec_kill_poll n p dir w :
  spec_kill (repeat Probe n) p dir w =
  let '(gone, w1) := killPid_poll n p w in
  if gone then (Some None, w1) else (None, w1).
Proof.
  revert w. induction n as [|n IH]; intros w; [done|].
  cbn [repeat spec_kill killPid_poll step_signal].
  destruct (Process_Signal p SIG0 w) as [[e|] w1]; [done|]. apply IH.
Qed.

Lemma spec_kill_send sig rest p dir w :
  spec_kill ([Send sig] ++ rest) p dir w =
  let '(err, w1) := Process_Signal p sig w in
  match err with
  | Some e => (Some (Some (Errorf "error killing daemon %s: %s\n" [AStr dir; AErr e])), w1)
  | None => spec_kill rest p dir w1
  end.
Proof. done. Qed.

(** The body of [killPid] performs the schedule, step by step. *)
Lemma killPid_body_refines fuel p dir w :
  killPid_body fuel p dir w = spec_kill (spec_escalation fuel) p dir w.
Proof.
  unfold killPid_body, spec_escalation, waitProcess.
  change (Z.to_nat (1000 `quot` 10)) with 100%nat.
  change (Z.to_nat (5000 `quot` 10)) with 500%nat.
  rewrite spec_kill_send.
  destruct (Process_Signal p SIGINT w) as [[e|] w1]; [done|].
  rewrite spec_kill_wait.
  destruct (waitProcess_loop 100 p w1) as [[e|] w2]; [|done].
  rewrite spec_kill_send.
  destruct (Process_Signal p SIGINT w2) as [[e'|] w3]; [done|].
  rewrite spec_kill_wait.
  destruct (waitProcess_loop 100 p w3) as [[e'|] w4]; [|done].
  rewrite spec_kill_send.
  destruct (Process_Signal p SIGQUIT w4) as [[e''|] w5]; [done|].
  rewrite spec_kill_wait.
  destruct (waitProcess_loop 500 p w5) as [[e''|] w6]; [|done].
  rewrite spec_kill_send.
  destruct (Process_Signal p SIGKILL w6) as [[e3|] w7]; [done|].
  rewrite spec_kill_poll.
  by destruct (killPid_poll fuel p w7) as [[|] w8].
Qed.

(** The calls of a performed schedule: every step before the last one
    went through, and the run ends at the first signal that fails. *)
Lemma spec_kill_trace sts p dir w :
  match spec_kill sts p dir w with
  | (Some ret, w') =>
      exists k st e,
        sts !! k = Some st /\
        w_trace w' = w_trace w ++ steps_passed p (take k sts) ++
                     [EvSignal p (step_signal st) (Some e)] /\
        ret = step_verdict dir st e /\
        w_files w' = w_files w /\ w_denied w' = w_denied w
  | (None, w') =>
      w_trace w' = w_trace w ++ steps_passed p sts /\
      w_files w' = w_files w /\ w_denied w' = w_denied w
  end.
Proof.
  revert w. induction sts as [|st sts IH]; intros w.
  - simpl. by rewrite app_nil_r.
  - cbn [spec_kill].
    destruct (Process_Signal p (step_signal st) w) as [err w1] eqn:Hsig.
    apply Process_Signal_inv in Hsig as (_ & Hf & Hd & Ht & _).
    destruct err as [e|].
    + exists 0%nat, st, e. by rewrite Ht.
    + assert (Hnext : exists w2, w_trace w2 = w_trace w ++ step_passed p st /\
                 w_files w2 = w_files w /\ w_denied w2 = w_denied w /\
                 match st with Send _ => spec_kill sts p dir w1
                          | Probe => spec_kill sts p dir (Sleep 10 w1) end
                 = spec_kill sts p dir w2).
      { destruct st as [sig|].
        - exists w1. by rewrite Ht.
        - exists (Sleep 10 w1). simpl. rewrite Ht, Hf, Hd. by rewrite <- app_assoc. }
      destruct Hnext as (w2 & Ht2 & Hf2 & Hd2 & ->).
      specialize (IH w2).
      destruct (spec_kill sts p dir w2) as [[ret|] w'].
      * destruct IH as (k & st' & e & Hk & Ht' & Hret & Hf' & Hd').
        exists (S k), st', e. split_and!; [done| |done|congruence|congruence].
        rewrite Ht', Ht2. unfold steps_passed. simpl. by rewrite <- !app_assoc.
      * destruct IH as (Ht' & Hf' & Hd'). split_and!; try congruence.
        rewrite Ht', Ht2. unfold steps_passed. simpl. by rewrite <- !app_assoc.
Qed.

(** More fuel does not change a kill that has returned. *)
Lemma killPid_poll_mono fuel fuel' p w w' :
  (fuel <= fuel')%nat ->
  killPid_poll fuel p w = (true, w') -> killPid_poll fuel' p w = (true, w').
Proof.
  revert fuel' w. induction fuel as [|fuel IH]; intros fuel' w Hle; [done|].
  destruct fuel' as [|fuel']; [lia|]. simpl.
  destruct (Process_Signal p SIG0 w) as [[e|] w1]; [done|].
  apply IH. lia.
Qed.

Lemma killPid_body_mono fuel fuel' p dir w ret w' :
  (fuel <= fuel')%nat ->
  killPid_body fuel p dir w = (Some ret, w') -> killPid_body fuel' p dir w = (Some ret, w').
Proof.
  intros Hle. unfold killPid_body.
  destruct (Process_Signal p SIGINT w) as [[e|] w1]; [done|].
  destruct (waitProcess p 1000 w1) as [[e|] w2]; [|done].
  destruct (Process_Signal p SIGINT w2) as [[e'|] w3]; [done|].
  destruct (waitProcess p 1000 w3) as [[e'|] w4]; [|done].
  destruct (Process_Signal p SIGQUIT w4) as [[e''|] w5]; [done|].
  destruct (waitProcess p 5000 w5) as [[e''|] w6]; [|done].
  destruct (Process_Signal p SIGKILL w6) as [[e3|] w7]; [done|].
  destruct (killPid_poll fuel p w7) as [[|] w8] eqn:Hpoll; [|done].
  by rewrite (killPid_poll_mono _ _ _ _ _ Hle Hpoll).
Qed.

Lemma killPid_fuel_mono fuel fuel' pid dir w out w' :
  (fuel <= fuel')%nat ->
  killPid fuel pid dir w = (Some out, w') -> killPid fuel' pid dir w = (Some out, w').
Proof.
  intros Hle. unfold killPid. destruct (os_FindProcess pid (w_os w)); [done|].
  destruct (killPid_body fuel pid dir w) as [[ret|] w1] eqn:Hbody; [|done].
  by rewrite (killPid_body_mono _ _ _ _ _ _ _ Hle Hbody).
Qed.

Lemma killPid_deferred_inv dir ret w out w' :
  killPid_deferred dir ret w = (out, w') ->
  let pidfile := filepath_Join dir "daemon.pid" in
  exists rm,
    w_trace w' = w_trace w ++ [EvRemove pidfile rm] /\
    out = removal_outcome dir ret rm /\
    (pidfile ∉ w_denied w -> (rm = None \/ os_IsNotExist rm = true) /\
       w_files w' = delete pidfile (w_files w)) /\
    (pidfile ∈ w_denied w -> is_Some (w_files w !! pidfile) ->
       rm = Some (PathError "remove" pidfile EACCES) /\ w_files w' = w_files w).
Proof.
  intros Hdef pidfile. unfold killPid_deferred, os_Remove in Hdef. fold pidfile in Hdef.
  destruct (w_files w !! pidfile) as [b|] eqn:Hlook.
  - destruct (decide (pidfile ∈ w_denied w)) as [Hden|Hden].
    + simpl in Hdef. injection Hdef as <- <-.
      exists (Some (PathError "remove" pidfile EACCES)). split_and!; done.
    + simpl in Hdef. injection Hdef as <- <-.
      exists None. split_and!; try done. intros _. split; [by left|done].
  - simpl in Hdef. injection Hdef as <- <-.
    exists (Some (PathError "remove" pidfile ENOENT)). split_and!; try done.
    intros _. split; [by right|]. simpl. by rewrite delete_id.
Qed.

(** C1: with the process handle obtained, the signal calls of [killPid]
    are an initial run of the schedule: interrupt, 100 probes 10 ms apart,
    interrupt, 100 probes, quit, 500 probes, kill, then probes without a
    bound.  Every call before the last one was delivered; the call ends at
    the first signal [st] that fails, after which the only call is the
    deferred removal of the PID file.  A failed probe makes the call return
    nil, a failed termination signal the error.  A call that has not
    returned has gone through the whole schedule, all [fuel] rounds of the
    final loop included. *)
Theorem killPid_escalation fuel pid dir w :
  os_FindProcess pid (w_os w) = None ->
  let sched := spec_escalation fuel in
  match killPid fuel pid dir w with
  | (Some out, w') =>
      exists k st e rm,
        sched !! k = Some st /\
        w_trace w' = w_trace w ++ steps_passed pid (take k sched) ++
                     [EvSignal pid (step_signal st) (Some e);
                      EvRemove (filepath_Join dir "daemon.pid") rm] /\
        out = removal_outcome dir (step_verdict dir st e) rm
  | (None, w') => w_trace w' = w_trace w ++ steps_passed pid sched
  end.
Proof.
  intros Hfind sched. unfold killPid. rewrite Hfind, killPid_body_refines.
  pose proof (spec_kill_trace sched pid dir w) as Htrace. fold sched.
  destruct (spec_kill sched pid dir w) as [[ret|] w1].
  - destruct Htrace as (k & st & e & Hk & Ht & -> & _).
    destruct (killPid_deferred dir (step_verdict dir st e) w1) as [out w'] eqn:Hdef.
    apply killPid_deferred_inv in Hdef as (rm & Ht' & -> & _).
    exists k, st, e, rm. split_and!; try done.
    rewrite Ht', Ht. by rewrite <- !app_assoc.
  - by destruct Htrace as (Ht & _).
Qed.

(** C2 (as amended): [killPid] removes the PID file in a deferred call, on
    every return once the process handle is obtained: after a probe found
    the process gone and just as well after a termination signal could not
    be delivered.  The removal is the last call in either case.  Where the
    PID file may be removed the call returns and the file is gone; where an
    existing PID file may not be removed the call panics and the file
    stays.  Only a call that fails to obtain the handle leaves the world,
    the PID file included, as it was. *)
Theorem killPid_removes_pid_file fuel pid dir w out w' :
  killPid fuel pid dir w = (Some out, w') ->
  let pidfile := filepath_Join dir "daemon.pid" in
  (is_Some (os_FindProcess pid (w_os w)) -> w' = w) /\
  (os_FindProcess pid (w_os w) = None ->
     (exists tr rm, w_trace w' = tr ++ [EvRemove pidfile rm]) /\
     (pidfile ∉ w_denied w ->
        (exists ret, out = Returned ret) /\ w_files w' = delete pidfile (w_files w)) /\
     (pidfile ∈ w_denied w -> is_Some (w_files w !! pidfile) ->
        (exists v, out = Panicked v) /\ w_files w' = w_files w)).
Proof.
  intros Hkill pidfile. unfold killPid in Hkill.
  destruct (os_FindProcess pid (w_os w)) as [e|].
  { injection Hkill as <- <-. split; [done|]. done. }
  split; [by intros [? ?]|]. intros _.
  rewrite killPid_body_refines in Hkill.
  pose proof (spec_kill_trace (spec_escalation fuel) pid dir w) as Htrace.
  destruct (spec_kill (spec_escalation fuel) pid dir w) as [[ret|] w1]; [|done].
  destruct Htrace as (k & st & e & _ & _ & _ & Hfiles & Hden).
  destruct (killPid_deferred dir ret w1) as [out1 w2] eqn:Hdef.
  injection Hkill as <- <-.
  apply killPid_deferred_inv in Hdef as (rm & Ht & -> & Hok & Hno).
  fold pidfile in Ht, Hok, Hno. rewrite Hden, Hfiles in *.
  split_and!.
  - by eexists _, rm.
  - intros Hfree. destruct (Hok Hfree) as [Hrm ->]. split; [|done].
    unfold removal_outcome. destruct Hrm as [->|Hrm]; [by eexists|].
    destruct rm; [rewrite Hrm; by eexists|by eexists].
  - intros Hdenied Hex. destruct (Hno Hdenied Hex) as [-> ->]. split; [|done].
    by eexists.
Qed.

(** ** Readiness waiter *)

Lemma FilecoinNode_envForDaemon_nil fn w : snd (FilecoinNode_envForDaemon fn w) = None.
Proof.
  unfold FilecoinNode_envForDaemon, FilecoinNode_envForDaemon_on.
  by destruct (range_replace _ _ _ _ _).
Qed.

Lemma FilecoinNode_envForDaemon_environ fn w w' :
  w_environ w' = w_environ w ->
  FilecoinNode_envForDaemon fn w' = FilecoinNode_envForDaemon fn w.
Proof. unfold FilecoinNode_envForDaemon, os_Environ. by intros ->. Qed.

(** The identity query is one run of [id_cmd] in the node's environment. *)
Lemma FilecoinNode_RunCmd_id fn w :
  let env := fst (FilecoinNode_envForDaemon fn w) in
  exists out errout err o,
    cmd_Run (id_cmd env) (w_os w) = ((out, errout, err), o) /\
    FilecoinNode_RunCmd fn ["go-filecoin"; "id"; "--format=<id>"] w =
      (Returned (match err with
                 | Some e => ("", Some (Errorf "%s: %s %s" [AErr e; AStr out; AStr errout]))
                 | None => (out, None)
                 end),
       log (EvRun (id_cmd env) out errout err) (set_os o w)).
Proof.
  intros env. unfold FilecoinNode_RunCmd.
  pose proof (FilecoinNode_envForDaemon_nil fn w) as Hnil. subst env.
  destruct (FilecoinNode_envForDaemon fn w) as [env err0]. simpl in Hnil. subst err0.
  simpl. unfold Cmd_Run. fold (id_cmd env).
  destruct (cmd_Run (id_cmd env) (w_os w)) as [[[out errout] err] o].
  exists out, errout, err, o. split; [done|]. by destruct err.
Qed.

(** The retry loop with [rounds] attempts left: a run of failed attempts,
    which either uses up the rounds and leaves the node as it was, or is
    cut short by the first attempt that succeeds, whose trimmed output
    becomes the peer identity. *)
Lemma Start_retry_spec rounds fn w :
  let env := fst (FilecoinNode_envForDaemon fn w) in
  exists fails final fn' w',
    Start_retry rounds fn w = (Returned fn', w') /\
    w_trace w' = w_trace w ++ concat (map (failed_attempt env) fails) ++ final /\
    ((length fails = rounds /\ final = [] /\ fn' = fn) \/
     ((length fails < rounds)%nat /\ exists out errout,
        final = [EvRun (id_cmd env) out errout None] /\
        fn' = mkFilecoinNode (fDir fn) (strings_TrimSpace out) (ApiPort fn))).
Proof.
  revert w. induction rounds as [|rounds IH]; intros w env.
  - exists [], [], fn, w. simpl. rewrite app_nil_r. split_and!; try done. by left.
  - cbn [Start_retry].
    destruct (FilecoinNode_RunCmd_id fn w) as (out & errout & err & o & _ & ->).
    fold env. destruct err as [e|].
    + set (w1 := Sleep 100 (Printf _ _ _)).
      assert (Henv : w_environ w1 = w_environ w) by done.
      specialize (IH w1). simpl in IH.
      rewrite (FilecoinNode_envForDaemon_environ fn w w1 Henv) in IH. fold env in IH.
      destruct IH as (fails & final & fn' & w' & -> & Ht & Hcase).
      exists ((out, errout, e) :: fails), final, fn', w'.
      split_and!; [done| |].
      * rewrite Ht. subst w1. simpl. by rewrite <- !app_assoc.
      * destruct Hcase as [(Hlen & -> & ->)|(Hlen & Hfinal)]; [left|right].
        -- simpl. by rewrite Hlen.
        -- simpl. split; [lia|done].
    + eexists [], _, _, _. split_and!; [done|done|]. right.
      split; [simpl; lia|]. by exists out, errout.
Qed.

Lemma startProcess_environ bin dcmd args dir env w err w' :
  startProcess bin dcmd args dir env w = (err, w') -> w_environ w' = w_environ w.
Proof.
  unfold startProcess.
  destruct (isAlive dir w) as [[alive e] w0] eqn:Halive.
  apply isAlive_inv in Halive as (Henv & _).
  destruct e; [by intros [= <- <-]|]. destruct alive; [by intros [= <- <-]|].
  unfold os_Create.
  destruct (decide (filepath_Join dir "daemon.stdout" ∈ w_denied w0));
    [by intros [= <- <-]|].
  simpl. destruct (decide (filepath_Join dir "daemon.stderr" ∈ w_denied w0));
    [by intros [= <- <-]|].
  simpl. unfold Cmd_Start. simpl.
  destruct (cmd_Start _ (w_os w0)) as [[pid e] o].
  destruct e; [by intros [= <- <-]|]. unfold ioutil_WriteFile. simpl.
  destruct (decide (filepath_Join dir "daemon.pid" ∈ w_denied w0)); by intros [= <- <-].
Qed.

(** C7: after a successful launch [FilecoinNode.Start] sleeps 100 ms and
    then queries the identity at most 10 times, with a 100 ms sleep after
    every failed attempt.  The first attempt that succeeds ends the loop
    and its output, trimmed, becomes the peer identity of the node.  When
    all 10 attempts fail the node is as it was, its peer identity
    included.  Either way the call returns, with a nil error. *)
Theorem Start_waits_for_identity fn args w w1 :
  let env := fst (FilecoinNode_envForDaemon fn w) in
  startProcess "go-filecoin" "daemon"
    (["--cmdapiaddr=" +:+ ApiPort fn; "--swarmlisten=/ip4/127.0.0.1/tcp/0"] ++ args)
    (fDir fn) env w = (None, w1) ->
  exists fails final fn' w',
    FilecoinNode_Start fn args w = (Returned (fn', None), w') /\
    w_trace w' = w_trace w1 ++ [EvSleep 100] ++
                 concat (map (failed_attempt env) fails) ++ final ++
                 [EvPrintln [AStr "PEER ID IS: "; AStr (fPeerID fn')]] /\
    ((length fails = 10%nat /\ final = [] /\ fn' = fn) \/
     ((length fails < 10)%nat /\ exists out errout,
        final = [EvRun (id_cmd env) out errout None] /\
        fn' = mkFilecoinNode (fDir fn) (strings_TrimSpace out) (ApiPort fn))).
Proof.
  intros env Hstart. unfold FilecoinNode_Start.
  pose proof (FilecoinNode_envForDaemon_nil fn w) as Hnil. subst env.
  destruct (FilecoinNode_envForDaemon fn w) as [env err0] eqn:Hbuild.
  simpl in Hnil. cbn [fst] in Hstart. subst err0. cbv beta match zeta. rewrite Hstart.
  apply startProcess_environ in Hstart as Henv.
  destruct (Start_retry_spec 10 fn (Sleep 100 w1))
    as (fails & final & fn' & w' & -> & Ht & Hcase).
  rewrite (FilecoinNode_envForDaemon_environ fn w (Sleep 100 w1)) in Ht, Hcase by done.
  rewrite Hbuild in Ht, Hcase. simpl in Ht, Hcase.
  exists fails, final, fn', (Println [AStr "PEER ID IS: "; AStr (fPeerID fn')] w').
  split_and!; [done| |done].
  unfold Println, log. cbn [w_trace]. rewrite Ht. cbn [Sleep log w_trace].
  by rewrite <- !app_assoc.
Qed.

(** ** Interactive shell *)

Lemma Shell_range_ok i nodes nenvs :
  Forall (fun m => GetPeerID m <> "") nodes ->
  Shell_range i nodes nenvs = (nenvs ++ node_vars i nodes, None).
Proof.
  intros Hall. revert i nenvs.
  induction Hall as [|m nodes Hm _ IH]; intros i nenvs; simpl.
  - by rewrite app_nil_r.
  - destruct (String.eqb_spec (GetPeerID m) ""); [done|].
    rewrite IH. by rewrite <- app_assoc.
Qed.

Lemma Shell_range_empty i nodes nenvs :
  Exists (fun m => GetPeerID m = "") nodes ->
  snd (Shell_range i nodes nenvs) = Some (Errorf "failed to check peerID" []).
Proof.
  intros Hex. revert i nenvs.
  induction Hex as [m nodes Hm|m nodes _ IH]; intros i nenvs; simpl.
  - by rewrite Hm.
  - destruct (String.eqb (GetPeerID m) ""); [done|apply IH].
Qed.

Lemma node_vars_length i nodes : length (node_vars i nodes) = length nodes.
Proof. revert i. induction nodes as [|m nodes IH]; intros i; simpl; [done|by rewrite IH]. Qed.

Lemma node_vars_lookup i nodes k m :
  nodes !! k = Some m ->
  node_vars i nodes !! k =
    Some ("NODE" +:+ fmt_Sprint_int (i + Z.of_nat k) +:+ "=" +:+ GetPeerID m).
Proof.
  revert i k. induction nodes as [|m' nodes IH]; intros i k; [done|].
  destruct k as [|k].
  - intros [= ->]. cbn [node_vars lookup list_lookup]. by rewrite Z.add_0_r.
  - intros Hk. simpl in Hk. cbn [node_vars].
    change ((?x :: ?l) !! S k) with (l !! k).
    rewrite (IH (i + 1) k Hk).
    by replace (i + Z.of_nat (S k)) with (i + 1 + Z.of_nat k) by lia.
Qed.

(** C8: with the registry loaded, [Shell] on a node ends with an error,
    and the world as it was (so that no shell is spawned), as soon as one
    node of the registry has an empty peer identity.  When every node has
    one and SHELL is set, the shell is executed on the inherited
    environment followed by the data-directory variable of the node and by
    one "NODE<k>=<peer identity>" per node, in the order of the
    registry. *)
Theorem Shell_broadcasts_identities (n : TestbedNode) w nodes :
  LoadNodes w = (nodes, None) ->
  (Exists (fun m => GetPeerID m = "") nodes ->
     Shell n w =
       (ShellError (if String.eqb (os_Getenv "SHELL" w) ""
                    then Errorf "couldnt find shell!" []
                    else Errorf "failed to check peerID" []), w)) /\
  (Forall (fun m => GetPeerID m <> "") nodes -> os_Getenv "SHELL" w <> "" ->
     let shell := os_Getenv "SHELL" w in
     let envv := os_Environ w ++ [path_var n] ++ node_vars 0 nodes in
     let err := syscall_Exec shell [shell] envv (w_os w) in
     Shell n w = (match err with Some e => ShellError e | None => ShellExeced end,
                  log (EvExec shell [shell] envv err) w) /\
     path_var n ∈ envv /\
     length (node_vars 0 nodes) = length nodes /\
     forall k m, nodes !! k = Some m ->
       ("NODE" +:+ fmt_Sprint_int (Z.of_nat k) +:+ "=" +:+ GetPeerID m) ∈ envv).
Proof.
  intros Hload. split.
  - intros Hex.
    destruct n as [n|fn]; unfold Shell, LocalNode_Shell, FilecoinNode_Shell;
      (destruct (String.eqb (os_Getenv "SHELL" w) ""); [done|]);
      rewrite Hload;
      match goal with
      | |- context [Shell_range 0 nodes ?nenvs] =>
          pose proof (Shell_range_empty 0 nodes nenvs Hex) as Herr;
          destruct (Shell_range 0 nodes nenvs) as [nenvs' err]
      end; simpl in Herr; by subst err.
  - intros Hall Hshell shell envv err.
    split_and!.
    + destruct n as [n|fn]; unfold Shell, LocalNode_Shell, FilecoinNode_Shell;
        (destruct (String.eqb_spec (os_Getenv "SHELL" w) ""); [done|]);
        rewrite Hload, (Shell_range_ok 0 nodes _ Hall);
        fold shell; cbn [path_var] in envv; fold envv; fold err; by destruct err.
    + subst envv. set_solver.
    + apply node_vars_length.
    + intros k m Hk. subst envv. apply elem_of_app. right. apply elem_of_app. right.
      apply list_elem_of_lookup. exists k.
      by rewrite (node_vars_lookup 0 nodes k m Hk).
Qed.

End Properties.

(** * Runs on the concrete platform *)

(** ** Runs of the liveness prober *)

Lemma isAlive_probe_witness :
  isAlive "/n" (Toy.world [] [] (Toy.kernel [])) =
    ((false, None), Toy.world [] [] (Toy.kernel [])) /\
  isAlive "/n" (Toy.world [] [("/n/daemon.pid", "4 2")] (Toy.kernel [])) =
    ((false, Some (NumError "Atoi" "4 2" ErrSyntax)),
     Toy.world [] [("/n/daemon.pid", "4 2")] (Toy.kernel [])) /\
  fst (isAlive "/n" (Toy.running [None])) = (true, None).
Proof.
  split_and!.
  - apply (isAlive_probe "/n" (Toy.world [] [] (Toy.kernel []))). reflexivity.
  - eapply (isAlive_probe "/n" (Toy.world [] [("/n/daemon.pid", "4 2")] (Toy.kernel [])));
      reflexivity.
  - destruct (isAlive_probe "/n" (Toy.running [None])) as (_ & _ & _ & Hprobe).
    rewrite (Hprobe "42" 42 None _ eq_refl eq_refl eq_refl eq_refl). reflexivity.
Defined.

(** C3, the claim as stated, fails where the probe is refused for lack of
    permission: the process with pid 42 exists, signal 0 returns EPERM, and
    [isAlive] reports the node as not alive. *)
Lemma probe_refused_counterexample :
  let w := Toy.running [Some (SyscallError EPERM)] in
  fst (isAlive "/n" w) = (false, None) /\
  w_trace (snd (isAlive "/n" w)) = [EvSignal 42 SIG0 (Some (SyscallError EPERM))].
Proof. split; reflexivity. Qed.

(** ** Runs of the launcher *)

Lemma start_refuses_live_node_witness :
  let w := Toy.running [None] in
  let w1 := snd (isAlive "/n" w) in
  startProcess "ipfs" "daemon" [] "/n" ["IPFS_PATH=/n"] w =
    (Some (Errorf "node is already running" []), w1) /\
  w_files w1 = w_files w /\
  LocalNode_Start (mkLocalNode "/n" "") [] w =
    ((mkLocalNode "/n" "", Some (Errorf "node is already running" [])), w1).
Proof.
  intros w w1.
  destruct (start_refuses_live_node "ipfs" "daemon" [] "/n" ["IPFS_PATH=/n"] w w1)
    as (Hstart & Hfiles & _ & Hlocal & _); [reflexivity|].
  split_and!; [exact Hstart|exact Hfiles|by apply Hlocal].
Defined.

Lemma launch_redirects_output_witness :
  exists c pid,
    EvStart c pid None ∈ w_trace (snd (startProcess "ipfs" "daemon" [] "/n" ["IPFS_PATH=/n"] Toy.stopped)) /\
    c_Stdout c = Some (mkFile "/n/daemon.stdout" [O_RDWR; O_CREATE; O_TRUNC]) /\
    c_Stderr c = Some (mkFile "/n/daemon.stderr" [O_RDWR; O_CREATE; O_TRUNC]) /\
    c_Dir c = "/n" /\ c_Env c = ["IPFS_PATH=/n"].
Proof.
  destruct (launch_redirects_output "ipfs" "daemon" [] "/n" ["IPFS_PATH=/n"] Toy.stopped
              (snd (startProcess "ipfs" "daemon" [] "/n" ["IPFS_PATH=/n"] Toy.stopped)))
    as (c & pid & Hin & Hout & Herr & Hdir & Henv & _).
  - reflexivity.
  - intros c. split; reflexivity.
  - by exists c, pid.
Defined.

(** C6, the claim as stated, fails on a node directory that holds the log
    of an earlier run: the launch succeeds, daemon.stdout is opened with
    O_TRUNC and without O_APPEND, and the old log is gone. *)
Lemma launch_truncates_log_counterexample :
  let r := startProcess "ipfs" "daemon" [] "/n" ["IPFS_PATH=/n"] Toy.stopped in
  fst r = None /\
  w_files Toy.stopped !! "/n/daemon.stdout" = Some "old log" /\
  w_files (snd r) !! "/n/daemon.stdout" = Some "" /\
  EvStart (daemon_cmd "ipfs" "daemon" [] "/n" ["IPFS_PATH=/n"]) 43 None ∈ w_trace (snd r) /\
  c_Stdout (daemon_cmd "ipfs" "daemon" [] "/n" ["IPFS_PATH=/n"]) =
    Some (mkFile "/n/daemon.stdout" [O_RDWR; O_CREATE; O_TRUNC]).
Proof.
  split_and!; try reflexivity.
  vm_compute. do 2 apply list_elem_of_further. apply list_elem_of_here.
Qed.

Lemma Start_config_failure_leaves_daemon_witness :
  let n := mkLocalNode "/n" "" in
  let w1 := snd (startProcess "ipfs" "daemon" [] "/n" (fst (LocalNode_envForDaemon n Toy.stopped)) Toy.stopped) in
  LocalNode_Start n [] Toy.stopped = ((n, Some (PathError "open" "/n/config" ENOENT)), w1) /\
  w_files w1 !! "/n/daemon.pid" = Some "43".
Proof.
  intros n w1.
  destruct (Start_config_failure_leaves_daemon n [] Toy.stopped w1 (mkConfig "")
              (PathError "open" "/n/config" ENOENT)) as (Hret & pid & c & tr & Htr & Hpid).
  - reflexivity.
  - reflexivity.
  - split; [exact Hret|reflexivity].
Defined.

(** ** Runs of the shutdown escalator *)

(** A daemon that exits on the first interrupt: the first probe finds it
    gone. *)
Lemma killPid_escalation_witness :
  let w := Toy.running [None; Some ProcessDone] in
  match killPid 0 42 "/n" w with
  | (Some out, w') =>
      exists k st e rm,
        spec_escalation 0 !! k = Some st /\
        w_trace w' = w_trace w ++ steps_passed 42 (take k (spec_escalation 0)) ++
                     [EvSignal 42 (step_signal st) (Some e);
                      EvRemove "/n/daemon.pid" rm] /\
        out = removal_outcome "/n" (step_verdict "/n" st e) rm
  | (None, w') => w_trace w' = w_trace w ++ steps_passed 42 (spec_escalation 0)
  end.
Proof.
  exact (killPid_escalation 0 42 "/n" (Toy.running [None; Some ProcessDone]) eq_refl).
Defined.

Example kill_cooperative :
  let r := killPid 0 42 "/n" (Toy.running [None; Some ProcessDone]) in
  fst r = Some (Returned None) /\
  w_trace (snd r) =
    [EvSignal 42 SIGINT None; EvSignal 42 SIG0 (Some ProcessDone);
     EvRemove "/n/daemon.pid" None] /\
  w_files (snd r) !! "/n/daemon.pid" = None.
Proof. split_and!; reflexivity. Qed.

(** A daemon that ignores interrupt and quit and dies of the kill signal
    after two more probes: 704 steps go through, the third probe of the
    final loop finds it gone. *)
Example kill_stubborn :
  let w := Toy.running (repeat None 706 ++ [Some ProcessDone]) in
  fst (killPid 2 42 "/n" w) = None /\
  fst (killPid 3 42 "/n" w) = Some (Returned None) /\
  List.filter (fun ev => match ev with EvSignal _ SIG0 _ | EvSleep _ => false | _ => true end)
    (w_trace (snd (killPid 3 42 "/n" w))) =
    [EvSignal 42 SIGINT None; EvSignal 42 SIGINT None; EvSignal 42 SIGQUIT None;
     EvSignal 42 SIGKILL None; EvRemove "/n/daemon.pid" None].
Proof. split_and!; vm_compute; reflexivity. Qed.

Lemma killPid_removes_pid_file_witness :
  let w := Toy.running [None; Some ProcessDone] in
  let w' := snd (killPid 0 42 "/n" w) in
  w_files w' = delete "/n/daemon.pid" (w_files w).
Proof.
  intros w w'.
  destruct (killPid_removes_pid_file 0 42 "/n" w (Returned None) w') as [_ Hrm];
    [reflexivity|].
  destruct Hrm as (_ & Hfree & _); [reflexivity|].
  apply Hfree. apply not_elem_of_empty.
Defined.

(** C2, the claim as stated, fails where the first interrupt cannot be
    delivered: the process with pid 42 belongs to someone else, the signal
    returns EPERM, [killPid] returns the error, and the PID file, there
    before the call, is removed all the same. *)
Lemma signal_error_removes_pid_file_counterexample :
  let w := Toy.running [Some (SyscallError EPERM)] in
  let r := killPid 0 42 "/n" w in
  fst r = Some (Returned (Some (Errorf "error killing daemon %s: %s\n"
                                  [AStr "/n"; AErr (SyscallError EPERM)]))) /\
  w_trace (snd r) =
    [EvSignal 42 SIGINT (Some (SyscallError EPERM)); EvRemove "/n/daemon.pid" None] /\
  w_files w !! "/n/daemon.pid" = Some "42" /\
  w_files (snd r) !! "/n/daemon.pid" = None.
Proof. split_and!; reflexivity. Qed.

(** ** Runs of the readiness waiter and of the shell *)

(** The identity query fails once, then answers. *)
Lemma Start_waits_for_identity_witness :
  let fn := mkFilecoinNode "/n" "" "3453" in
  let w := Toy.world ["HOME=/root"] []
             (Toy.serving [("", "not ready", Some (errors_New "exit status 1"));
                           ("QmPeer ", "", None)] []) in
  exists fn' w',
    FilecoinNode_Start fn [] w = (Returned (fn', None), w') /\
    fPeerID fn' = "QmPeer".
Proof.
  intros fn w.
  pose proof (Start_waits_for_identity fn [] w
                (snd (startProcess "go-filecoin" "daemon"
                        (["--cmdapiaddr=" +:+ ApiPort fn; "--swarmlisten=/ip4/127.0.0.1/tcp/0"] ++ [])
                        (fDir fn) (fst (FilecoinNode_envForDaemon fn w)) w))) as Hspec.
  cbv zeta in Hspec.
  destruct Hspec as (fails & final & fn' & w' & Hstart & _); [reflexivity|].
  exists fn', w'. split; [exact Hstart|].
  assert (Hrun := Hstart). vm_compute in Hrun. by injection Hrun as <- _.
Defined.

(** No attempt succeeds: ten queries, and the node as it was. *)
Example Start_never_ready :
  let fn := mkFilecoinNode "/n" "" "3453" in
  let r := FilecoinNode_Start fn [] (Toy.world ["HOME=/root"] [] (Toy.serving [] [])) in
  fst r = Returned (fn, None) /\
  length (List.filter (fun ev => match ev with EvRun _ _ _ _ => true | _ => false end)
            (w_trace (snd r))) = 10%nat /\
  List.filter (fun ev => match ev with EvSleep _ => true | _ => false end)
    (w_trace (snd r)) = repeat (EvSleep 100) 11.
Proof. split_and!; vm_compute; reflexivity. Qed.

Lemma Shell_broadcasts_identities_witness :
  let a := Local (mkLocalNode "/a" "QmA") in
  let b := Filecoin (mkFilecoinNode "/b" "QmB" "3453") in
  let unknown := Filecoin (mkFilecoinNode "/c" "" "3454") in
  let w := Toy.world ["HOME=/root"; "SHELL=/bin/sh"] [] (Toy.serving [] [a; b]) in
  let w0 := Toy.world ["HOME=/root"; "SHELL=/bin/sh"] [] (Toy.serving [] [a; unknown; b]) in
  Shell a w0 = (ShellError (Errorf "failed to check peerID" []), w0) /\
  Shell a w =
    (ShellExeced,
     log (EvExec "/bin/sh" ["/bin/sh"]
            ["HOME=/root"; "SHELL=/bin/sh"; "IPFS_PATH=/a"; "NODE0=QmA"; "NODE1=QmB"]
            None) w).
Proof.
  intros a b unknown w w0. split.
  - destruct (Shell_broadcasts_identities a w0 [a; unknown; b]) as [Hfail _];
      [reflexivity|].
    apply Hfail. apply Exists_cons_tl, Exists_cons_hd. reflexivity.
  - destruct (Shell_broadcasts_identities a w [a; b]) as [_ Hok]; [reflexivity|].
    destruct Hok as (Hshell & _).
    + repeat constructor; discriminate.
    + discriminate.
    + exact Hshell.
Defined.

(** * Further properties *)

(** ** Decimal text of a pid *)

Lemma digit_of_spec :
  digit_of "0" = Some 0 /\ digit_of "1" = Some 1 /\ digit_of "2" = Some 2 /\
  digit_of "3" = Some 3 /\ digit_of "4" = Some 4 /\ digit_of "5" = Some 5 /\
  digit_of "6" = Some 6 /\ digit_of "7" = Some 7 /\ digit_of "8" = Some 8 /\
  digit_of "9" = Some 9.
Proof. repeat split. Qed.

Lemma parse_digits_acc d (acc : positive) :
  parse_digits (Z.pos acc) (NilEmpty.string_of_uint d) =
  Some (Z.pos (Pos.of_uint_acc d acc)).
Proof.
  revert acc. induction d; intros acc; cbn [NilEmpty.string_of_uint parse_digits Pos.of_uint_acc];
    [done|..];
    match goal with
    | |- context [digit_of ?c] =>
        let v := eval vm_compute in (digit_of c) in change (digit_of c) with v
    end; cbv beta iota;
    match goal with
    | |- parse_digits ?a _ = Some (Z.pos (Pos.of_uint_acc _ ?b)) =>
        replace a with (Z.pos b) by lia
    end; apply IHd.
Qed.

Lemma parse_digits_zero d :
  parse_digits 0 (NilEmpty.string_of_uint d) = Some (Z.of_N (Pos.of_uint d)).
Proof.
  induction d; cbn [NilEmpty.string_of_uint parse_digits Pos.of_uint]; [done|..];
    match goal with
    | |- context [digit_of ?c] =>
        let v := eval vm_compute in (digit_of c) in change (digit_of c) with v
    end; cbv beta iota; simpl Z.add;
    [exact IHd|apply parse_digits_acc..].
Qed.

(** The text of a positive number starts with a digit and is its own body
    for [strconv.Atoi]. *)
Lemma string_of_pos_shape p :
  exists c s, NilZero.string_of_uint (Pos.to_uint p) = String c s /\
    NilZero.string_of_uint (Pos.to_uint p) = NilEmpty.string_of_uint (Pos.to_uint p) /\
    c <> "-"%char /\ c <> "+"%char.
Proof.
  pose proof (DecimalPos.Unsigned.to_uint_nonnil p) as Hnil.
  destruct (Pos.to_uint p) eqn:Hd; [done|..]; eexists _, _;
    (split; [reflexivity|split; [reflexivity|split; discriminate]]).
Qed.

Lemma Atoi_pos p :
  Z.pos p <= maxInt ->
  strconv_Atoi (NilZero.string_of_uint (Pos.to_uint p)) = (Z.pos p, None).
Proof.
  intros Hmax.
  destruct (string_of_pos_shape p) as (c & s & Hs & Hempty & Hminus & Hplus).
  pose proof (parse_digits_zero (Pos.to_uint p)) as Hparse.
  rewrite DecimalPos.Unsigned.of_to in Hparse. rewrite <- Hempty, Hs in Hparse.
  unfold strconv_Atoi. rewrite Hs.
  assert (Hbody : (match String c s with
                   | String "-" s' => (true, s')
                   | String "+" s' => (false, s')
                   | _ => (false, String c s)
                   end) = (false, String c s)).
  { destruct c as [[|] [|] [|] [|] [|] [|] [|] [|]]; try reflexivity; congruence. }
  rewrite Hbody, Hparse. simpl Z.of_N.
  destruct (Z.ltb_spec maxInt (Z.pos p)); [lia|].
  destruct (Z.ltb_spec (Z.pos p) minInt); [unfold minInt in *; lia|done].
Qed.

(** [strconv.Atoi] reads back what [fmt.Sprint] printed of an int. *)
Lemma Atoi_Sprint z :
  minInt <= z <= maxInt -> strconv_Atoi (fmt_Sprint_int z) = (z, None).
Proof.
  intros [Hmin Hmax]. destruct z as [|p|p].
  - reflexivity.
  - by apply Atoi_pos.
  - unfold fmt_Sprint_int. cbn [Z.to_int NilZero.string_of_int].
    destruct (string_of_pos_shape p) as (c & s & Hs & Hempty & _).
    pose proof (parse_digits_zero (Pos.to_uint p)) as Hparse.
    rewrite DecimalPos.Unsigned.of_to in Hparse. rewrite <- Hempty, Hs in Hparse.
    unfold strconv_Atoi. rewrite Hs. cbv beta iota zeta. rewrite Hparse. simpl Z.of_N.
    change (- Z.pos p) with (Z.neg p).
    destruct (Z.ltb_spec maxInt (Z.neg p)); [unfold maxInt in *; lia|].
    destruct (Z.ltb_spec (Z.neg p) minInt); [lia|done].
Qed.

Section Lifecycle.
Context {OS : Type} `{!Platform OS}.

Implicit Types (w : World OS) (dir : string) (p pid : Z).

(** ** The PID file between start, probe and kill *)

(** A launch that succeeded could create both logs and write the PID
    file. *)
Lemma startProcess_success_access bin dcmd args dir env w w' :
  startProcess bin dcmd args dir env w = (None, w') ->
  (filepath_Join dir "daemon.stdout" ∉ w_denied w) /\
  (filepath_Join dir "daemon.stderr" ∉ w_denied w) /\
  (filepath_Join dir "daemon.pid" ∉ w_denied w).
Proof.
  unfold startProcess.
  destruct (isAlive dir w) as [[alive err] w0] eqn:Halive.
  destruct err; [done|]. destruct alive; [done|].
  apply isAlive_inv in Halive as (_ & _ & Hden & _).
  unfold os_Create.
  destruct (decide (filepath_Join dir "daemon.stdout" ∈ w_denied w0)); [done|].
  simpl. destruct (decide (filepath_Join dir "daemon.stderr" ∈ w_denied w0)); [done|].
  simpl. unfold Cmd_Start. simpl.
  destruct (cmd_Start _ (w_os w0)) as [[pid err] o].
  destruct err; [done|]. unfold ioutil_WriteFile. simpl.
  destruct (decide (filepath_Join dir "daemon.pid" ∈ w_denied w0)); [done|].
  intros _. by rewrite <- Hden.
Qed.

(** A launch that succeeded: the kernel answered the start with a pid,
    and the PID file holds its decimal text. *)
Lemma startProcess_success_pid bin dcmd args dir env w w' :
  startProcess bin dcmd args dir env w = (None, w') ->
  exists pid,
    cmd_Start (daemon_cmd bin dcmd args dir env) (w_os (snd (isAlive dir w))) =
      ((pid, None), w_os w') /\
    getPID dir w' = strconv_Atoi (fmt_Sprint_int pid).
Proof.
  unfold startProcess.
  destruct (isAlive dir w) as [[alive err] w0].
  destruct err; [done|]. destruct alive; [done|].
  unfold os_Create.
  destruct (decide (filepath_Join dir "daemon.stdout" ∈ w_denied w0)); [done|].
  simpl. destruct (decide (filepath_Join dir "daemon.stderr" ∈ w_denied w0)); [done|].
  simpl. unfold Cmd_Start. simpl. fold (daemon_cmd bin dcmd args dir env).
  destruct (cmd_Start (daemon_cmd bin dcmd args dir env) (w_os w0)) as [[pid err] o].
  destruct err; [done|]. unfold ioutil_WriteFile. simpl.
  destruct (decide (filepath_Join dir "daemon.pid" ∈ w_denied w0)); [done|].
  intros [= <-]. exists pid. split; [done|].
  unfold getPID, ioutil_ReadFile. simpl. rewrite lookup_insert_eq.
  by destruct (decide (filepath_Join dir "daemon.pid" ∈ w_denied w0)).
Qed.

(** X1: after a launch that succeeded, [getPID] on the node directory
    returns the pid the kernel gave the started command, for every pid an
    int holds. *)
Theorem getPID_after_start bin dcmd args dir env w w' pid o :
  startProcess bin dcmd args dir env w = (None, w') ->
  cmd_Start (daemon_cmd bin dcmd args dir env) (w_os (snd (isAlive dir w))) =
    ((pid, None), o) ->
  minInt <= pid <= maxInt ->
  getPID dir w' = (pid, None).
Proof.
  intros Hstart Hkernel Hrange.
  destruct (startProcess_success_pid _ _ _ _ _ _ _ Hstart) as (pid' & Hk & Hget).
  rewrite Hkernel in Hk. injection Hk as <- _. by rewrite Hget, Atoi_Sprint.
Qed.

(** X2: a second start on the directory of a launched node, whose process
    answers the probe, is refused: it returns the already-running error,
    starts nothing, and leaves every file, the PID file included, as the
    first launch wrote it. *)
Theorem second_start_refused bin dcmd args dir env w w' pid o bin2 dcmd2 args2 env2 :
  startProcess bin dcmd args dir env w = (None, w') ->
  cmd_Start (daemon_cmd bin dcmd args dir env) (w_os (snd (isAlive dir w))) =
    ((pid, None), o) ->
  minInt <= pid <= maxInt ->
  os_FindProcess pid (w_os w') = None ->
  fst (proc_Signal pid SIG0 (w_os w')) = None ->
  exists w'',
    startProcess bin2 dcmd2 args2 dir env2 w' =
      (Some (Errorf "node is already running" []), w'') /\
    w_files w'' = w_files w' /\
    w_trace w'' = w_trace w' ++ [EvSignal pid SIG0 None].
Proof.
  intros Hstart Hkernel Hrange Hfind Hsig.
  destruct (startProcess_success_pid _ _ _ _ _ _ _ Hstart) as (pid' & Hk & Hget).
  rewrite Hkernel in Hk. injection Hk as <- _. rewrite Atoi_Sprint in Hget by done.
  assert (Halive : exists w'', isAlive dir w' = ((true, None), w'') /\
            w_trace w'' = w_trace w' ++ [EvSignal pid SIG0 None]).
  { unfold isAlive. rewrite Hget. simpl. rewrite Hfind.
    destruct (Process_Signal pid SIG0 w') as [err w''] eqn:Hprobe.
    apply Process_Signal_inv in Hprobe as (_ & _ & _ & Ht & Hos).
    rewrite Hos in Hsig. simpl in Hsig. subst err. by exists w''. }
  destruct Halive as (w'' & Halive & Ht). exists w''.
  split_and!; [|by apply isAlive_inv in Halive as (_ & ? & _)|done].
  unfold startProcess. by rewrite Halive.
Qed.


(** The first call of the body of [killPid] is the interrupt. *)
Lemma killPid_body_first fuel p dir w :
  exists r rest,
    w_trace (snd (killPid_body fuel p dir w)) = w_trace w ++ EvSignal p SIGINT r :: rest.
Proof.
  rewrite killPid_body_refines. unfold spec_escalation.
  cbn [app spec_kill step_signal].
  destruct (Process_Signal p SIGINT w) as [err w1] eqn:Hsig.
  apply Process_Signal_inv in Hsig as (_ & _ & _ & Ht & _).
  destruct err as [e|].
  - exists (Some e), []. done.
  - match goal with |- context [spec_kill ?sts p dir w1] =>
      pose proof (spec_kill_trace sts p dir w1) as Hrest;
      destruct (spec_kill sts p dir w1) as [[ret|] w2]
    end.
    + destruct Hrest as (k & st & e & _ & Ht2 & _).
      eexists None, _. simpl. rewrite Ht2, Ht, <- app_assoc. reflexivity.
    + destruct Hrest as (Ht2 & _).
      eexists None, _. simpl. rewrite Ht2, Ht, <- app_assoc. reflexivity.
Qed.

(** X4: after a launch that succeeded, [LocalNode.Kill] is [killPid] on
    the pid the kernel gave the started command; with the process handle
    obtained, its first call is the interrupt signal to that pid. *)
Theorem Kill_after_start (n : LocalNode) args env w w' pid o fuel :
  startProcess "ipfs" "daemon" args (Dir n) env w = (None, w') ->
  cmd_Start (daemon_cmd "ipfs" "daemon" args (Dir n) env) (w_os (snd (isAlive (Dir n) w))) =
    ((pid, None), o) ->
  minInt <= pid <= maxInt ->
  LocalNode_Kill fuel n w' = killPid fuel pid (Dir n) w' /\
  (os_FindProcess pid (w_os w') = None ->
   exists r rest,
     w_trace (snd (LocalNode_Kill fuel n w')) =
       w_trace w' ++ EvSignal pid SIGINT r :: rest).
Proof.
  intros Hstart Hkernel Hrange.
  destruct (startProcess_success_pid _ _ _ _ _ _ _ Hstart) as (pid' & Hk & Hget).
  rewrite Hkernel in Hk. injection Hk as <- _. rewrite Atoi_Sprint in Hget by done.
  assert (Hkill : LocalNode_Kill fuel n w' = killPid fuel pid (Dir n) w').
  { unfold LocalNode_Kill. by rewrite Hget. }
  split; [done|]. intros Hfind. rewrite Hkill. unfold killPid. rewrite Hfind.
  destruct (killPid_body_first fuel pid (Dir n) w') as (r & rest & Ht).
  destruct (killPid_body fuel pid (Dir n) w') as [[ret|] w1].
  - destruct (killPid_deferred (Dir n) ret w1) as [out w2] eqn:Hdef.
    apply killPid_deferred_inv in Hdef as (rm & Ht2 & _).
    exists r. eexists. simpl in *. rewrite Ht2, Ht, <- app_assoc. reflexivity.
  - by exists r, rest.
Qed.

(** X5: after a kill that returned, the PID file is not there, and
    [isAlive] answers false without an error and without a probe. *)
Theorem isAlive_after_kill fuel pid dir w ret w' :
  killPid fuel pid dir w = (Some (Returned ret), w') ->
  os_FindProcess pid (w_os w) = None ->
  w_files w' !! filepath_Join dir "daemon.pid" = None /\
  isAlive dir w' = ((false, None), w').
Proof.
  intros Hkill Hfind. unfold killPid in Hkill. rewrite Hfind in Hkill.
  destruct (killPid_body fuel pid dir w) as [[ret1|] w1]; [|done].
  unfold killPid_deferred, os_Remove in Hkill.
  assert (Habs : w_files w' !! filepath_Join dir "daemon.pid" = None).
  { destruct (w_files w1 !! filepath_Join dir "daemon.pid") as [b|] eqn:Hlook.
    - destruct (decide (filepath_Join dir "daemon.pid" ∈ w_denied w1)); [done|].
      simpl in Hkill. injection Hkill as _ <-. simpl. apply lookup_delete_eq.
    - simpl in Hkill. by injection Hkill as _ <-. }
  split; [done|].
  unfold isAlive, getPID, ioutil_ReadFile. by rewrite Habs.
Qed.

(** ** Waiting *)

Lemma waitProcess_loop_spec rounds p w :
  exists k, (k <= rounds)%nat /\
    w_files (snd (waitProcess_loop rounds p w)) = w_files w /\
    match fst (waitProcess_loop rounds p w) with
    | None =>
        (k < rounds)%nat /\ exists e,
          w_trace (snd (waitProcess_loop rounds p w)) =
            w_trace w ++ steps_passed p (repeat Probe k) ++ [EvSignal p SIG0 (Some e)]
    | Some t =>
        t = errors_New "timed out" /\ k = rounds /\
        w_trace (snd (waitProcess_loop rounds p w)) =
          w_trace w ++ steps_passed p (repeat Probe k)
    end.
Proof.
  revert w. induction rounds as [|rounds IH]; intros w.
  - exists 0%nat. simpl. by rewrite app_nil_r.
  - cbn [waitProcess_loop].
    destruct (Process_Signal p SIG0 w) as [err w1] eqn:Hsig.
    apply Process_Signal_inv in Hsig as (_ & Hf & _ & Ht & _).
    destruct err as [e|].
    + exists 0%nat. simpl. split_and!; [lia|done|lia|]. by exists e.
    + destruct (IH (Sleep 10 w1)) as (k & Hk & Hfiles & Hcase).
      exists (S k). split_and!; [lia|by rewrite Hfiles|].
      destruct (fst (waitProcess_loop rounds p (Sleep 10 w1))) as [t|].
      * destruct Hcase as (-> & -> & Ht2). split_and!; [done|done|].
        rewrite Ht2. simpl. rewrite Ht. unfold steps_passed. simpl.
        by rewrite <- !app_assoc.
      * destruct Hcase as (Hlt & e & Ht2). split; [lia|]. exists e.
        rewrite Ht2. simpl. rewrite Ht. unfold steps_passed. simpl.
        by rewrite <- !app_assoc.
Qed.

(** X6: [waitProcess p ms] makes at most [ms / 10] probes, each one that
    is delivered followed by a 10 ms sleep, and touches no file.  It
    returns nil at the first probe that fails, and the timeout error after
    exactly [ms / 10] delivered probes.  For [ms] below 10 it times out at
    once, without a call. *)
Theorem waitProcess_bounded p ms w :
  let rounds := Z.to_nat (Z.quot ms 10) in
  let r := waitProcess p ms w in
  (exists k, (k <= rounds)%nat /\ w_files (snd r) = w_files w /\
     match fst r with
     | None =>
         (k < rounds)%nat /\ exists e,
           w_trace (snd r) =
             w_trace w ++ steps_passed p (repeat Probe k) ++ [EvSignal p SIG0 (Some e)]
     | Some t =>
         t = errors_New "timed out" /\ k = rounds /\
         w_trace (snd r) = w_trace w ++ steps_passed p (repeat Probe k)
     end) /\
  (ms < 10 -> r = (Some (errors_New "timed out"), w)).
Proof.
  intros rounds r. split.
  - apply waitProcess_loop_spec.
  - intros Hms. subst r. unfold waitProcess.
    assert (Z.to_nat (Z.quot ms 10) = 0%nat) as ->; [|done].
    destruct (Z.le_gt_cases 0 ms).
    + rewrite Z.quot_small by lia. done.
    + pose proof (Z.quot_opp_l ms 10 ltac:(lia)) as Hopp.
      pose proof (Z.quot_pos (- ms) 10 ltac:(lia) ltac:(lia)). lia.
Qed.

(** ** The kill signal as the last resort *)

Lemma spec_kill_app sts1 sts2 p dir w :
  spec_kill (sts1 ++ sts2) p dir w =
  match spec_kill sts1 p dir w with
  | (Some ret, w1) => (Some ret, w1)
  | (None, w1) => spec_kill sts2 p dir w1
  end.
Proof.
  revert w. induction sts1 as [|st sts1 IH]; intros w; [done|].
  cbn [app spec_kill].
  destruct (Process_Signal p (step_signal st) w) as [[e|] w1]; [done|].
  destruct st; apply IH.
Qed.

Lemma spec_escalation_prelude fuel :
  spec_escalation fuel = escalation_prelude ++ [Send SIGKILL] ++ repeat Probe fuel.
Proof. unfold spec_escalation, escalation_prelude. by rewrite <- !app_assoc. Qed.

Lemma escalation_prelude_signals st :
  In st escalation_prelude -> step_signal st <> SIGKILL.
Proof.
  unfold escalation_prelude. rewrite !in_app_iff. simpl.
  intros H. repeat (destruct H as [H|H]);
    try (apply repeat_spec in H); try (subst st; discriminate); done.
Qed.

Lemma steps_passed_signal p sts sig e :
  EvSignal p sig e ∈ steps_passed p sts -> exists st, In st sts /\ step_signal st = sig.
Proof.
  induction sts as [|st sts IH]; unfold steps_passed; simpl.
  - intros H. by apply elem_of_nil in H.
  - intros H. apply elem_of_app in H as [H|H].
    + exists st. split; [by left|].
      destruct st; simpl in H.
      * apply list_elem_of_singleton in H. by injection H.
      * apply elem_of_cons in H as [H|H]; [by injection H|].
        by apply list_elem_of_singleton in H.
    + destruct (IH H) as (st' & Hin & Hsig). exists st'. split; [by right|done].
Qed.

Lemma take_In {A} (l : list A) k x : In x (take k l) -> In x l.
Proof.
  revert k. induction l as [|y l IH]; intros [|k]; simpl; try done.
  intros [->|H]; [by left|right; eauto].
Qed.

(** X7: with the process handle obtained, either [killPid] sends no kill
    signal at all, or its calls begin with the whole prelude gone through:
    both interrupts and the quit delivered and all 700 probes, each with
    its 10 ms sleep, finding the process there; only then comes the kill
    signal. *)
Theorem kill_signal_is_last_resort fuel pid dir w :
  os_FindProcess pid (w_os w) = None ->
  exists tr,
    w_trace (snd (killPid fuel pid dir w)) = w_trace w ++ tr /\
    ((forall e, EvSignal pid SIGKILL e ∉ tr) \/
     (exists r rest,
        tr = steps_passed pid escalation_prelude ++ EvSignal pid SIGKILL r :: rest)) /\
    length (List.filter (fun ev => match ev with EvSleep 10 => true | _ => false end)
              (steps_passed pid escalation_prelude)) = 700%nat.
Proof.
  intros Hfind.
  assert (Hbody : exists tr,
    w_trace (snd (killPid_body fuel pid dir w)) = w_trace w ++ tr /\
    ((forall e, EvSignal pid SIGKILL e ∉ tr) \/
     (exists r rest,
        tr = steps_passed pid escalation_prelude ++ EvSignal pid SIGKILL r :: rest))).
  { rewrite killPid_body_refines, spec_escalation_prelude, spec_kill_app.
    pose proof (spec_kill_trace escalation_prelude pid dir w) as Hpre.
    destruct (spec_kill escalation_prelude pid dir w) as [[ret|] w1].
    - destruct Hpre as (k & st & e & Hk & Ht & _).
      eexists. split; [exact Ht|]. left. intros e' Hin.
      apply elem_of_app in Hin as [Hin|Hin].
      + apply steps_passed_signal in Hin as (st' & Hst' & Hsig).
        by apply (escalation_prelude_signals st'); [eapply take_In|].
      + apply list_elem_of_singleton in Hin. injection Hin as Hsig _.
        apply (escalation_prelude_signals st); [|done].
        apply list_elem_of_In, list_elem_of_lookup. by exists k.
    - destruct Hpre as (Ht & _). rewrite spec_kill_send.
      destruct (Process_Signal pid SIGKILL w1) as [err w2] eqn:Hsig.
      apply Process_Signal_inv in Hsig as (_ & _ & _ & Ht2 & _).
      destruct err as [e|].
      + eexists. split; [simpl; rewrite Ht2, Ht, <- app_assoc; reflexivity|].
        right. by exists (Some e), [].
      + pose proof (spec_kill_trace (repeat Probe fuel) pid dir w2) as Hrest.
        destruct (spec_kill (repeat Probe fuel) pid dir w2) as [[ret|] w3].
        * destruct Hrest as (k & st & e & _ & Ht3 & _).
          eexists. split; [simpl; rewrite Ht3, Ht2, Ht, <- !app_assoc; reflexivity|].
          right. by eexists None, _.
        * destruct Hrest as (Ht3 & _).
          eexists. split; [simpl; rewrite Ht3, Ht2, Ht, <- !app_assoc; reflexivity|].
          right. by eexists None, _. }
  destruct Hbody as (tr & Ht & Hcase).
  unfold killPid. rewrite Hfind.
  destruct (killPid_body fuel pid dir w) as [[ret|] w1]; simpl in Ht.
  - destruct (killPid_deferred dir ret w1) as [out w2] eqn:Hdef.
    apply killPid_deferred_inv in Hdef as (rm & Ht2 & _).
    exists (tr ++ [EvRemove (filepath_Join dir "daemon.pid") rm]).
    split_and!; [simpl; by rewrite Ht2, Ht, <- app_assoc| |by vm_compute].
    destruct Hcase as [Hno|(r & rest & ->)]; [left|right].
    + intros e Hin. apply elem_of_app in Hin as [Hin|Hin]; [by apply (Hno e)|].
      by apply list_elem_of_singleton in Hin.
    + exists r. eexists. rewrite <- app_assoc. reflexivity.
  - exists tr. split_and!; [done|done|by vm_compute].
Qed.

(** ** What a launch leaves behind when it fails *)

(** X8: when the daemon is started and its pid cannot be written,
    [startProcess] returns the error of the write and stops there: the
    daemon runs, no PID file records it, and no signal is sent to it. *)
Theorem pid_write_failure_orphans bin dcmd args dir env w w0 pid o :
  isAlive dir w = ((false, None), w0) ->
  (filepath_Join dir "daemon.stdout" ∉ w_denied w) ->
  (filepath_Join dir "daemon.stderr" ∉ w_denied w) ->
  (filepath_Join dir "daemon.pid" ∈ w_denied w) ->
  cmd_Start (daemon_cmd bin dcmd args dir env) (w_os w0) = ((pid, None), o) ->
  exists w',
    startProcess bin dcmd args dir env w =
      (Some (PathError "open" (filepath_Join dir "daemon.pid") EACCES), w') /\
    w_trace w' = w_trace w0 ++
      [EvCreate (filepath_Join dir "daemon.stdout") None;
       EvCreate (filepath_Join dir "daemon.stderr") None;
       EvStart (daemon_cmd bin dcmd args dir env) pid None;
       EvPrintf "Started daemon %s, pid = %d\n" [AStr dir; AInt pid];
       EvWriteFile (filepath_Join dir "daemon.pid") (fmt_Sprint_int pid)
         (Some (PathError "open" (filepath_Join dir "daemon.pid") EACCES))] /\
    w_files w' =
      <[filepath_Join dir "daemon.stderr" := ""]>
        (<[filepath_Join dir "daemon.stdout" := ""]> (w_files w)).
Proof.
  intros Halive Hout Herr Hpid Hstart. unfold startProcess. rewrite Halive.
  apply isAlive_inv in Halive as (_ & Hfiles & Hden & _).
  unfold os_Create. rewrite <- Hden in Hout, Herr, Hpid.
  destruct (decide (filepath_Join dir "daemon.stdout" ∈ w_denied w0)); [done|].
  simpl. destruct (decide (filepath_Join dir "daemon.stderr" ∈ w_denied w0)); [done|].
  simpl. unfold Cmd_Start. simpl. fold (daemon_cmd bin dcmd args dir env).
  rewrite Hstart. unfold ioutil_WriteFile. simpl.
  destruct (decide (filepath_Join dir "daemon.pid" ∈ w_denied w0)); [|done].
  eexists. split_and!; [reflexivity| |].
  - simpl. rewrite <- ?app_assoc. reflexivity.
  - simpl. by rewrite Hfiles.
Qed.

(** X9: whatever [startProcess] returns, its calls after the probe are
    an initial run of: create daemon.stdout, create daemon.stderr, start
    the command, print, write the PID file.  So a command is started only
    after both logs were created, at most once, and the PID file is
    written only after a start that succeeded; the launcher sends no
    signal of its own beyond the probe and removes nothing. *)
Theorem startProcess_stages bin dcmd args dir env w :
  let r := startProcess bin dcmd args dir env w in
  let w0 := snd (isAlive dir w) in
  let out := filepath_Join dir "daemon.stdout" in
  let errf := filepath_Join dir "daemon.stderr" in
  let pidfile := filepath_Join dir "daemon.pid" in
  let c := daemon_cmd bin dcmd args dir env in
  exists tr, w_trace (snd r) = w_trace w0 ++ tr /\
    (tr = [] \/
     (exists e, tr = [EvCreate out (Some e)]) \/
     (exists e, tr = [EvCreate out None; EvCreate errf (Some e)]) \/
     (exists pid e, tr = [EvCreate out None; EvCreate errf None; EvStart c pid (Some e)]) \/
     (exists pid we,
        tr = [EvCreate out None; EvCreate errf None; EvStart c pid None;
              EvPrintf "Started daemon %s, pid = %d\n" [AStr dir; AInt pid];
              EvWriteFile pidfile (fmt_Sprint_int pid) we] /\
        fst r = we)).
Proof.
  intros r w0 out errf pidfile c. subst r w0 out errf pidfile c. unfold startProcess.
  destruct (isAlive dir w) as [[alive err] w0]. cbn [snd].
  destruct err as [e|]; [exists []; split; [by rewrite app_nil_r|by left]|].
  destruct alive; [exists []; split; [by rewrite app_nil_r|by left]|].
  unfold os_Create.
  destruct (decide (filepath_Join dir "daemon.stdout" ∈ w_denied w0)).
  { eexists. split; [reflexivity|]. right. left. by eexists. }
  simpl. destruct (decide (filepath_Join dir "daemon.stderr" ∈ w_denied w0)).
  { eexists. split; [simpl; rewrite <- ?app_assoc; reflexivity|].
    right. right. left. by eexists. }
  simpl. unfold Cmd_Start. simpl. fold (daemon_cmd bin dcmd args dir env).
  destruct (cmd_Start (daemon_cmd bin dcmd args dir env) (w_os w0)) as [[pid err] o].
  destruct err as [e|].
  { eexists. split; [simpl; rewrite <- ?app_assoc; reflexivity|].
    right. right. right. left. by eexists _, _. }
  unfold ioutil_WriteFile. simpl.
  destruct (decide (filepath_Join dir "daemon.pid" ∈ w_denied w0)).
  - eexists. split; [simpl; rewrite <- ?app_assoc; reflexivity|].
    right. right. right. right. by eexists _, _.
  - eexists. split; [simpl; rewrite <- ?app_assoc; reflexivity|].
    right. right. right. right. by eexists _, _.
Qed.

(** X10: a PID file that is there and does not parse blocks the start:
    [startProcess] returns the parse error and the world is as it was, so
    that nothing is created, started or written; [LocalNode.Start] returns
    the same error. *)
Theorem corrupt_pid_file_blocks_start bin dcmd args dir env w b v e :
  ioutil_ReadFile (filepath_Join dir "daemon.pid") w = (b, None) ->
  strconv_Atoi b = (v, Some e) ->
  startProcess bin dcmd args dir env w = (Some e, w) /\
  (forall n, Dir n = dir -> LocalNode_Start n args w = ((n, Some e), w)).
Proof.
  intros Hread Hatoi.
  assert (Hstart : forall bin dcmd args env,
            startProcess bin dcmd args dir env w = (Some e, w)).
  { intros. unfold startProcess, isAlive, getPID. rewrite Hread, Hatoi.
    by rewrite (strconv_Atoi_err _ _ _ Hatoi). }
  split; [apply Hstart|].
  intros n <-. unfold LocalNode_Start, LocalNode_envForDaemon, LocalNode_envForDaemon_on.
  destruct (range_replace _ _ _ _ _); by rewrite Hstart.
Qed.

(** X11: [isAlive] disturbs nothing: it leaves the environment and every
    file as they are, and its calls are none at all or the one signal 0;
    it is true only when that probe was made and delivered. *)
Theorem isAlive_only_probes dir w :
  let r := isAlive dir w in
  w_environ (snd r) = w_environ w /\ w_files (snd r) = w_files w /\
  (snd r = w \/ exists pid err, w_trace (snd r) = w_trace w ++ [EvSignal pid SIG0 err]) /\
  (fst (fst r) = true ->
   exists pid, w_trace (snd r) = w_trace w ++ [EvSignal pid SIG0 None]).
Proof.
  intros r. subst r.
  destruct (isAlive dir w) as [[alive err] w'] eqn:Halive. simpl.
  pose proof (isAlive_inv _ _ _ _ Halive) as (Henv & Hfiles & _ & Htrace).
  split_and!; try done.
  intros ->. revert Halive. unfold isAlive. destruct (getPID dir w) as [pid e].
  destruct (os_IsNotExist e); [done|]. destruct e; [done|].
  destruct (os_FindProcess pid (w_os w)); [done|].
  destruct (Process_Signal pid SIG0 w) as [e w2] eqn:Hsig.
  apply Process_Signal_inv in Hsig as (_ & _ & _ & Ht & _).
  destruct e; [done|]. intros [= _ <-]. by exists pid.
Qed.

(** ** Start, after the launch *)

(** X12: once the launch has succeeded and the config is loaded,
    [LocalNode.Start] records the peer identity of the config on the node
    before it waits for the API: the node carries it whether the wait
    succeeds or fails, and the error of [Start] is the error of the
    wait. *)
Theorem Start_records_config_identity (n : LocalNode) args w w1 cfg :
  startProcess "ipfs" "daemon" args (Dir n) (fst (LocalNode_envForDaemon n w)) w = (None, w1) ->
  serial_Load (filepath_Join (Dir n) "config") w1 = (cfg, None) ->
  let n' := mkLocalNode (Dir n) (Identity_PeerID cfg) in
  LocalNode_Start n args w = ((n', fst (waitOnAPI n' w1)), snd (waitOnAPI n' w1)).
Proof.
  intros Hstart Hload n'. unfold LocalNode_Start.
  destruct (LocalNode_envForDaemon n w) as [env err] eqn:Henv.
  assert (err = None) as ->.
  { revert Henv. unfold LocalNode_envForDaemon, LocalNode_envForDaemon_on.
    destruct (range_replace _ _ _ _ _); congruence. }
  simpl in Hstart. rewrite Hstart, Hload. fold n'.
  by destruct (waitOnAPI n' w1) as [[e|] w2].
Qed.

(** [startProcess] neither sleeps nor runs a command to its end. *)
Lemma startProcess_no_wait bin dcmd args dir env w ev :
  ev ∈ drop (length (w_trace w)) (w_trace (snd (startProcess bin dcmd args dir env w))) ->
  match ev with EvSleep _ | EvRun _ _ _ _ => False | _ => True end.
Proof.
  unfold startProcess.
  destruct (isAlive dir w) as [[alive err] w0] eqn:Halive.
  apply isAlive_inv in Halive as (_ & _ & _ & Hprobe).
  assert (Hpre : exists pre, w_trace w0 = w_trace w ++ pre /\
            forall ev, ev ∈ pre -> match ev with EvSleep _ | EvRun _ _ _ _ => False | _ => True end).
  { destruct Hprobe as [->|(pid & e & Hp)].
    - exists []. split; [by rewrite app_nil_r|]. intros ? Hin. by apply elem_of_nil in Hin.
    - exists [EvSignal pid SIG0 e]. split; [done|].
      intros ? Hin. by apply list_elem_of_singleton in Hin as ->. }
  destruct Hpre as (pre & Hw0 & Hpre).
  assert (Hshape : forall w1 tr, w_trace w1 = w_trace w0 ++ tr ->
            (forall ev, ev ∈ tr -> match ev with EvSleep _ | EvRun _ _ _ _ => False | _ => True end) ->
            ev ∈ drop (length (w_trace w)) (w_trace w1) ->
            match ev with EvSleep _ | EvRun _ _ _ _ => False | _ => True end).
  { intros w1 tr Ht Htr. rewrite Ht, Hw0, <- app_assoc, drop_app_length.
    intros Hin. apply elem_of_app in Hin as [Hin|Hin]; [by apply Hpre|by apply Htr]. }
  assert (Hlist : forall tr : list Event,
            Forall (fun ev => match ev with EvSleep _ | EvRun _ _ _ _ => False | _ => True end) tr ->
            forall ev, ev ∈ tr -> match ev with EvSleep _ | EvRun _ _ _ _ => False | _ => True end).
  { intros tr Hall ev' Hin. by apply (proj1 (Forall_forall _ _) Hall). }
  destruct err as [e|]; [apply (Hshape w0 []); [by rewrite app_nil_r|by apply Hlist]|].
  destruct alive; [apply (Hshape w0 []); [by rewrite app_nil_r|by apply Hlist]|].
  unfold os_Create.
  destruct (decide (filepath_Join dir "daemon.stdout" ∈ w_denied w0)).
  { eapply Hshape; [reflexivity|]. apply Hlist. by repeat constructor. }
  simpl. destruct (decide (filepath_Join dir "daemon.stderr" ∈ w_denied w0)).
  { eapply Hshape; [simpl; rewrite <- ?app_assoc; reflexivity|].
    apply Hlist. by repeat constructor. }
  simpl. unfold Cmd_Start. simpl.
  destruct (cmd_Start _ (w_os w0)) as [[pid err] o].
  destruct err as [e|].
  { eapply Hshape; [simpl; rewrite <- ?app_assoc; reflexivity|].
    apply Hlist. by repeat constructor. }
  unfold ioutil_WriteFile. simpl.
  destruct (decide (filepath_Join dir "daemon.pid" ∈ w_denied w0));
    (eapply Hshape; [simpl; rewrite <- ?app_assoc; reflexivity|];
     apply Hlist; by repeat constructor).
Qed.

(** X13: when the launch fails, [FilecoinNode.Start] returns its error
    at once, in the world the launch left and with the node unchanged:
    it does not sleep and does not query the identity. *)
Theorem Start_launch_failure (fn : FilecoinNode) args w e w1 :
  startProcess "go-filecoin" "daemon"
    (["--cmdapiaddr=" +:+ ApiPort fn; "--swarmlisten=/ip4/127.0.0.1/tcp/0"] ++ args)
    (fDir fn) (fst (FilecoinNode_envForDaemon fn w)) w = (Some e, w1) ->
  FilecoinNode_Start fn args w = (Returned (fn, Some e), w1) /\
  (forall ms, EvSleep ms ∉ drop (length (w_trace w)) (w_trace w1)) /\
  (forall c out errout err,
     EvRun c out errout err ∉ drop (length (w_trace w)) (w_trace w1)).
Proof.
  intros Hstart. split.
  - unfold FilecoinNode_Start.
    pose proof (FilecoinNode_envForDaemon_nil fn w) as Hnil.
    destruct (FilecoinNode_envForDaemon fn w) as [env err0]. simpl in Hnil. subst err0.
    cbn [fst] in Hstart. cbv beta match zeta. by rewrite Hstart.
  - replace w1 with (snd (startProcess "go-filecoin" "daemon"
      (["--cmdapiaddr=" +:+ ApiPort fn; "--swarmlisten=/ip4/127.0.0.1/tcp/0"] ++ args)
      (fDir fn) (fst (FilecoinNode_envForDaemon fn w)) w)) by (by rewrite Hstart).
    split; intros; intros Hin; by apply startProcess_no_wait in Hin.
Qed.

(** ** Commands run for a node *)


(** X15: [LocalNode.RunCmd] on a non-empty argument vector makes one
    call, the run of [args[0]] with the arguments [args[1:]] in the
    environment [envForDaemon] builds, and never panics.  It returns the
    standard output of a run that succeeded, and for a run that failed
    the empty string with an error that carries the error of the run and
    both outputs. *)
Theorem RunCmd_runs_once (n : LocalNode) arg0 args1 w :
  let c := mkCmd arg0 (arg0 :: args1) "" (fst (LocalNode_envForDaemon n w)) None None false in
  exists out errout err o,
    cmd_Run c (w_os w) = ((out, errout, err), o) /\
    LocalNode_RunCmd n (arg0 :: args1) w =
      (Returned (match err with
                 | Some e => ("", Some (Errorf "%s: %s %s" [AErr e; AStr out; AStr errout]))
                 | None => (out, None)
                 end),
       log (EvRun c out errout err) (set_os o w)).
Proof.
  intros c. subst c. unfold LocalNode_RunCmd.
  assert (Hnil : snd (LocalNode_envForDaemon n w) = None).
  { unfold LocalNode_envForDaemon, LocalNode_envForDaemon_on.
    by destruct (range_replace _ _ _ _ _). }
  destruct (LocalNode_envForDaemon n w) as [env err0]. simpl in Hnil. subst err0.
  simpl. unfold Cmd_Run.
  destruct (cmd_Run _ (w_os w)) as [[[out errout] err] o].
  exists out, errout, err, o. split; [done|]. by destruct err.
Qed.

(** ** Log readers *)

(** X16: after a launch that succeeded, [StdoutReader] and
    [StderrReader] open, read-only and without error, the two files the
    started command has as its standard output and standard error. *)
Theorem readers_after_start (n : LocalNode) bin dcmd args env w w' :
  startProcess bin dcmd args (Dir n) env w = (None, w') ->
  exists fout ferr,
    LocalNode_StdoutReader n w' = (Some (mkFile (f_name fout) [O_RDONLY]), None) /\
    LocalNode_StderrReader n w' = (Some (mkFile (f_name ferr) [O_RDONLY]), None) /\
    c_Stdout (daemon_cmd bin dcmd args (Dir n) env) = Some fout /\
    c_Stderr (daemon_cmd bin dcmd args (Dir n) env) = Some ferr.
Proof.
  intros Hstart.
  pose proof (startProcess_success_access _ _ _ _ _ _ _ Hstart) as (Hout & Herr & _).
  apply startProcess_success in Hstart as (w0 & pid & _ & _ & Hfiles & _ & Hden).
  eexists _, _. split_and!; [| |reflexivity|reflexivity].
  - unfold LocalNode_StdoutReader, LocalNode_readerFor, os_OpenFile_RDONLY.
    rewrite Hfiles, Hden. simpl.
    rewrite !lookup_insert. repeat case_decide; try done;
      by destruct (decide (filepath_Join (Dir n) "daemon.stdout" ∈ w_denied w)).
  - unfold LocalNode_StderrReader, LocalNode_readerFor, os_OpenFile_RDONLY.
    rewrite Hfiles, Hden. simpl.
    rewrite !lookup_insert. repeat case_decide; try done;
      by destruct (decide (filepath_Join (Dir n) "daemon.stderr" ∈ w_denied w)).
Qed.

End Lifecycle.

(** ** The data directory in the built environment *)










(** * Further runs on the concrete platform *)

Lemma getPID_after_start_witness :
  let w' := snd (startProcess "ipfs" "daemon" [] "/n" ["IPFS_PATH=/n"] Toy.stopped) in
  getPID "/n" w' = (43, None).
Proof.
  intros w'.
  apply (getPID_after_start "ipfs" "daemon" [] "/n" ["IPFS_PATH=/n"] Toy.stopped w' 43 (w_os w'));
    [reflexivity|reflexivity|vm_compute; split; discriminate].
Defined.

(** The toy kernel keeps answering the probe of a daemon that was given
    the replies [None]: here the second start meets a live process. *)
Lemma second_start_refused_witness :
  let w := mkWorld ["HOME=/root"] ∅ ∅ (Toy.kernel [None]) [] in
  let w' := snd (startProcess "ipfs" "daemon" [] "/n" ["IPFS_PATH=/n"] w) in
  exists w'',
    startProcess "ipfs" "daemon" [] "/n" ["IPFS_PATH=/n"] w' =
      (Some (Errorf "node is already running" []), w'') /\
    w_files w'' = w_files w' /\
    w_trace w'' = w_trace w' ++ [EvSignal 43 SIG0 None].
Proof.
  intros w w'.
  apply (second_start_refused "ipfs" "daemon" [] "/n" ["IPFS_PATH=/n"] w w' 43 (w_os w'));
    [reflexivity|reflexivity|vm_compute; split; discriminate|reflexivity|reflexivity].
Defined.


Lemma Kill_after_start_witness :
  let n := mkLocalNode "/n" "" in
  let w' := snd (startProcess "ipfs" "daemon" [] "/n" ["IPFS_PATH=/n"] Toy.stopped) in
  LocalNode_Kill 0 n w' = killPid 0 43 "/n" w' /\
  exists r rest,
    w_trace (snd (LocalNode_Kill 0 n w')) = w_trace w' ++ EvSignal 43 SIGINT r :: rest.
Proof.
  intros n w'.
  destruct (Kill_after_start n [] ["IPFS_PATH=/n"] Toy.stopped w' 43 (w_os w') 0)
    as [Hkill Hfirst];
    [reflexivity|reflexivity|vm_compute; split; discriminate|].
  split; [exact Hkill|]. apply Hfirst. reflexivity.
Defined.

Lemma isAlive_after_kill_witness :
  let w' := snd (killPid 0 42 "/n" (Toy.running [None; Some ProcessDone])) in
  w_files w' !! "/n/daemon.pid" = None /\ isAlive "/n" w' = ((false, None), w').
Proof.
  intros w'.
  apply (isAlive_after_kill 0 42 "/n" (Toy.running [None; Some ProcessDone]) None w');
    reflexivity.
Defined.

Lemma waitProcess_bounded_witness :
  waitProcess 42 9 (Toy.running [None]) = (Some (errors_New "timed out"), Toy.running [None]).
Proof.
  apply (waitProcess_bounded 42 9 (Toy.running [None])). reflexivity.
Defined.

Lemma kill_signal_is_last_resort_witness :
  let w := Toy.running [None; Some ProcessDone] in
  exists tr,
    w_trace (snd (killPid 0 42 "/n" w)) = w_trace w ++ tr /\
    ((forall e, EvSignal 42 SIGKILL e ∉ tr) \/
     (exists r rest,
        tr = steps_passed 42 escalation_prelude ++ EvSignal 42 SIGKILL r :: rest)) /\
    length (List.filter (fun ev => match ev with EvSleep 10 => true | _ => false end)
              (steps_passed 42 escalation_prelude)) = 700%nat.
Proof.
  exact (kill_signal_is_last_resort 0 42 "/n" (Toy.running [None; Some ProcessDone]) eq_refl).
Defined.

Lemma pid_write_failure_orphans_witness :
  exists w',
    startProcess "ipfs" "daemon" [] "/n" ["IPFS_PATH=/n"] Runs.pid_locked =
      (Some (PathError "open" "/n/daemon.pid" EACCES), w') /\
    EvStart (daemon_cmd "ipfs" "daemon" [] "/n" ["IPFS_PATH=/n"]) 43 None ∈ w_trace w' /\
    w_files w' !! "/n/daemon.pid" = None.
Proof.
  destruct (pid_write_failure_orphans "ipfs" "daemon" [] "/n" ["IPFS_PATH=/n"]
              Runs.pid_locked Runs.pid_locked 43
              (w_os (snd (startProcess "ipfs" "daemon" [] "/n" ["IPFS_PATH=/n"] Runs.pid_locked))))
    as (w' & Hret & Htrace & Hfiles).
  - reflexivity.
  - vm_compute. set_solver.
  - vm_compute. set_solver.
  - vm_compute. set_solver.
  - reflexivity.
  - exists w'. split_and!; [exact Hret| |].
    + rewrite Htrace. apply elem_of_app. right.
      do 2 apply list_elem_of_further. apply list_elem_of_here.
    + rewrite Hfiles. reflexivity.
Defined.

Lemma corrupt_pid_file_blocks_start_witness :
  startProcess "ipfs" "daemon" [] "/n" ["IPFS_PATH=/n"] Runs.corrupt =
    (Some (NumError "Atoi" "4 2" ErrSyntax), Runs.corrupt).
Proof.
  apply (corrupt_pid_file_blocks_start "ipfs" "daemon" [] "/n" ["IPFS_PATH=/n"]
           Runs.corrupt "4 2" 0); reflexivity.
Defined.

Lemma isAlive_only_probes_witness :
  exists pid,
    w_trace (snd (isAlive "/n" (Toy.running [None]))) =
      w_trace (Toy.running [None]) ++ [EvSignal pid SIG0 None].
Proof.
  apply (isAlive_only_probes "/n" (Toy.running [None])). reflexivity.
Defined.

Lemma Start_records_config_identity_witness :
  let n := mkLocalNode "/n" "" in
  fst (LocalNode_Start n [] Runs.configured) = (mkLocalNode "/n" "QmConfig", None).
Proof.
  intros n.
  rewrite (Start_records_config_identity n [] Runs.configured
             (snd (startProcess "ipfs" "daemon" [] "/n"
                     (fst (LocalNode_envForDaemon n Runs.configured)) Runs.configured))
             (mkConfig "QmConfig")); reflexivity.
Defined.

Lemma Start_launch_failure_witness :
  let fn := mkFilecoinNode "/n" "" "3453" in
  fst (FilecoinNode_Start fn [] Runs.no_binary) =
    Returned (fn, Some (errors_New "executable file not found")).
Proof.
  intros fn.
  destruct (Start_launch_failure fn [] Runs.no_binary
              (errors_New "executable file not found")
              (snd (startProcess "go-filecoin" "daemon"
                      (["--cmdapiaddr=" +:+ ApiPort fn; "--swarmlisten=/ip4/127.0.0.1/tcp/0"] ++ [])
                      (fDir fn) (fst (FilecoinNode_envForDaemon fn Runs.no_binary))
                      Runs.no_binary))) as (Hret & _); [reflexivity|].
  by rewrite Hret.
Defined.

Lemma readers_after_start_witness :
  let n := mkLocalNode "/n" "" in
  let w' := snd (startProcess "ipfs" "daemon" [] "/n" ["IPFS_PATH=/n"] Toy.stopped) in
  LocalNode_StdoutReader n w' = (Some (mkFile "/n/daemon.stdout" [O_RDONLY]), None) /\
  LocalNode_StderrReader n w' = (Some (mkFile "/n/daemon.stderr" [O_RDONLY]), None).
Proof.
  intros n w'.
  destruct (readers_after_start n "ipfs" "daemon" [] ["IPFS_PATH=/n"] Toy.stopped w')
    as (fout & ferr & Hout & Herr & Hcout & Hcerr); [reflexivity|].
  injection Hcout as <-. injection Hcerr as <-. by split.
Defined.

(** The environment of a command run for a node, on a base that names
    the variable twice. *)
Example envForDaemon_lookup_duplicate :
  lookup_env "IPFS_PATH"
    (fst (LocalNode_envForDaemon_on (mkLocalNode "/new" "") ["IPFS_PATH"; "IPFS_PATH=/old"]))
  = "/new".
Proof. reflexivity. Qed.
